(** * The figures of [figures/generate_figures.py]

    A shallow embedding of the data-reduction step of
    [fig2_stochastic_resonance] (lines 113-134), of
    [stochastic_resonance_model] (lines 52-57), of what the four figure
    functions read from the loaded records before they draw, and of
    [save_figure], with the properties the specification states about
    them and further properties read off the code.

    Modelling decisions.
    - A numpy [float64] is a binary64 number: Rocq's primitive [float],
      whose [+], [-], [*], [/], [sqrt] and comparisons are those of IEEE
      754 with rounding to nearest even, as numpy's are.  Sums, products
      and quotients round, overflow and underflow; a division by zero
      returns an infinity or [nan] and raises nothing.
    - What numpy takes from the platform is a parameter, the record
      [Numpy]: the exponential and the power of the C library where the
      C standard does not fix their value, and the order in which
      [np.sum] adds an array of eight or more elements.
    - Python exceptions are values of [result]; the statements of the
      function run in the monad [Py], which threads the exception and the
      log of the calls made to the fitting library.
    - [scipy.optimize.curve_fit] is outside the repository: it is a
      variable of the development, a function from the arguments of the
      call to either an exception or a pair (popt, pcov).
    - A loaded record is a dict in which each key the figures read may be
      absent; a key that is present holds a value of its JSON type.
    - [Figure.savefig], the directory of the script and the operator [/]
      of pathlib are variables of [save_figure].  The calls that draw,
      [load_results] and [main] are not modelled. *)

From Stdlib Require Import Floats List String ZArith Lia Bool.
From Stdlib Require Import Permutation.
Import ListNotations.

#[local] Set Warnings "-inexact-float".

(** ** numpy float64 *)

Module F64.

Definition float64 : Set := PrimFloat.float.

(** [x > y]: false as soon as one side is [nan]. *)
Definition gtb (x y : float64) : bool := (y <? x)%float.

(** [x ** 2] on the elements of an array: numpy computes the power 2 of
    an array as the square, [x * x]. *)
Definition pow2 (x : float64) : float64 := (x * x)%float.

(** [np.sqrt]: the correctly rounded square root, [nan] on a negative
    argument. *)
Definition np_sqrt (x : float64) : float64 := PrimFloat.sqrt x.

(** The float64 of a count of elements (below 2^63). *)
Definition of_nat (n : nat) : float64 :=
  PrimFloat.of_uint63 (Uint63.of_Z (Z.of_nat n)).

End F64.

Export F64.

Bind Scope float_scope with float64.
Infix ">?" := F64.gtb (at level 70, no associativity) : float_scope.

(** How a value reaches an operation of numpy: as an element of a
    float64 array (the loops of numpy) or as a float64 scalar. *)
Inductive operand : Set :=
| Element
| Scalar.

(** What numpy takes from the platform. *)
Record Numpy : Type := mkNumpy {
  (** [exp], asked on finite arguments other than zero and up to 710. *)
  platform_exp : operand -> float64 -> float64;
  (** [pow(x, 2.0)] of the C library, asked on finite [x] other than
      zero. *)
  platform_pow2 : float64 -> float64;
  (** [np.add.reduce] on a float64 array of eight or more elements
      (blocked pairwise summation). *)
  pairwise_sum : list float64 -> float64;
  (** Whether a sum starts from -0.0, so that an array of negative zeros
      adds up to -0.0, or from 0.0: the releases of numpy differ. *)
  sum_keeps_negative_zero : bool
}.

(** [np.exp].  exp(nan) = nan, exp(+-0) = 1, exp(-inf) = +0 and the
    overflow to +inf (e^710 exceeds the largest float64) are fixed;
    elsewhere the value is the one of the platform. *)
Definition np_exp (np : Numpy) (k : operand) (x : float64) : float64 :=
  if PrimFloat.is_nan x then nan
  else if (x =? 0)%float then 1%float
  else if (710 <? x)%float then infinity
  else if (x =? neg_infinity)%float then 0%float
  else platform_exp np k x.

(** [x ** 2].  On an array it is the square of each element; on a scalar
    it is [pow(x, 2.0)], for which C fixes pow(nan, 2) = nan,
    pow(+-0, 2) = +0 and pow(+-inf, 2) = +inf. *)
Definition power2 (np : Numpy) (k : operand) (x : float64) : float64 :=
  match k with
  | Element => pow2 x
  | Scalar =>
      if PrimFloat.is_nan x then nan
      else if (x =? 0)%float then 0%float
      else if PrimFloat.is_infinity x then infinity
      else platform_pow2 np x
  end.

(** ** The model function (lines 52-57) *)

(** [return a * epsilon * np.exp(-b * epsilon**2) + c]; in Python the
    unary minus binds tighter than [*] and looser than [**].  The
    function is applied to the array [noise] (line 122, and by the
    fitting library) and to the scalar [epsilon_opt] (line 128): [k]
    tells which. *)
Definition stochastic_resonance_model (np : Numpy) (k : operand)
    (epsilon a b c : float64) : float64 :=
  (a * epsilon * np_exp np k ((- b) * power2 np k epsilon) + c)%float.

(** ** Python exceptions and the calls to the fitting library *)

Inductive exception : Type :=
| ValueError (msg : string)
| TypeError (msg : string)
| RuntimeError (msg : string)
| OtherError (msg : string).

Inductive result (A : Type) : Type :=
| Ok (v : A)
| Raise (e : exception).

Arguments Ok {A} v.
Arguments Raise {A} e.

(** The arguments of one call
    [curve_fit(f, xdata, ydata, p0=..., maxfev=...)]. *)
Record Call : Type := mkCall {
  call_f : operand -> float64 -> float64 -> float64 -> float64 -> float64;
  call_xdata : list float64;
  call_ydata : list float64;
  call_p0 : list float64;
  call_maxfev : Z
}.

(** A Python computation: it may raise, and it extends the log of the
    calls made to the fitting library. *)
Definition Py (A : Type) : Type := list Call -> result A * list Call.

Definition ret {A} (v : A) : Py A := fun log => (Ok v, log).

Definition raise {A} (e : exception) : Py A := fun log => (Raise e, log).

Definition bind {A B} (m : Py A) (k : A -> Py B) : Py B :=
  fun log =>
    match m log with
    | (Ok v, log') => k v log'
    | (Raise e, log') => (Raise e, log')
    end.

(** [try: body  except: handler], with the bare [except:] of the source:
    every exception of the body is caught, whatever it is. *)
Definition try_except {A} (body handler : Py A) : Py A :=
  fun log =>
    match body log with
    | (Ok v, log') => (Ok v, log')
    | (Raise _, log') => handler log'
    end.

Declare Scope py_scope.
Delimit Scope py_scope with py.
Notation "x <- m ;; k" := (bind m (fun x => k))
  (at level 61, m at next level, right associativity) : py_scope.
Notation "' p <- m ;; k" := (bind m (fun x => match x with p => k end))
  (at level 61, p pattern, m at next level, right associativity) : py_scope.

(** Running a computation from the empty log. *)
Definition outcome {A} (m : Py A) : result A := fst (m []).
Definition calls {A} (m : Py A) : list Call := snd (m []).

Definition returns {A} (m : Py A) (v : A) : Prop := outcome m = Ok v.
Definition raises {A} (m : Py A) (e : exception) : Prop := outcome m = Raise e.

(** ** numpy arrays and Python builtins used by the fit *)

(** [np.sum] of a one-dimensional array: 0.0 on the empty array, the
    elements added from left to right to the start value below eight of
    them, the blocked order of the platform from eight on. *)
Definition np_sum (np : Numpy) (l : list float64) : float64 :=
  match l with
  | [] => 0%float
  | _ :: _ =>
      if (List.length l <? 8)%nat
      then fold_left PrimFloat.add l
             (if sum_keeps_negative_zero np then neg_zero else 0%float)
      else pairwise_sum np l
  end.

(** [np.mean]: the sum divided by the number of elements; on the empty
    array this is 0.0/0 = nan, with a warning and no exception. *)
Definition np_mean (np : Numpy) (l : list float64) : float64 :=
  (np_sum np l / F64.of_nat (List.length l))%float.

(** Elementwise difference of two arrays (here always of equal length). *)
Fixpoint arr_sub (xs ys : list float64) : list float64 :=
  match xs, ys with
  | x :: xs', y :: ys' => (x - y)%float :: arr_sub xs' ys'
  | _, _ => []
  end.

(** The loop of the builtin [max]: the running maximum is replaced by an
    item only when [item > maximum]. *)
Fixpoint max_loop (cur : float64) (rest : list float64) : float64 :=
  match rest with
  | [] => cur
  | y :: rest' => max_loop (if (y >? cur)%float then y else cur) rest'
  end.

(** The builtin [max] on a sequence: ValueError on the empty one. *)
Definition python_max (l : list float64) : Py float64 :=
  match l with
  | [] => raise (ValueError "max() arg is an empty sequence")
  | y :: rest => ret (max_loop y rest)
  end.

(** ** The data and the result of the fit *)

(** A record of ['results'] in the JSON file, with the fields
    [fig2_stochastic_resonance] reads. *)
Record record : Type := mkRecord {
  system_size : string;
  noise_amplitude : float64;
  max_phi : float64
}.

(** The values lines 117-134 leave in [a], [b], [c], [r_squared],
    [epsilon_opt] and [phi_opt]. *)
Record FitResult : Type := mkFitResult {
  fit_a : float64;
  fit_b : float64;
  fit_c : float64;
  r_squared : float64;
  epsilon_opt : float64;
  phi_opt : float64
}.

Definition popt_t : Type := float64 * float64 * float64.
Definition pcov_t : Type := list (list float64).

(** The initial guess [p0=[0.02, 0.02, 0.0]] and the cap [maxfev=5000]
    of line 119. *)
Definition p0 : list float64 := [0.02; 0.02; 0.0]%float.
Definition maxfev : Z := 5000%Z.

(** ** The fit (lines 113-134 of [fig2_stochastic_resonance]) *)

Section Fit.

(** [scipy.optimize.curve_fit], as a function of the arguments it is
    called with: it raises, or returns (popt, pcov) with popt of the
    length of p0. *)
Variable scipy_curve_fit : Call -> result (popt_t * pcov_t).

Variable np : Numpy.

Definition curve_fit
    (f : operand -> float64 -> float64 -> float64 -> float64 -> float64)
    (xdata ydata : list float64) (p0 : list float64) (maxfev : Z)
  : Py (popt_t * pcov_t) :=
  fun log =>
    let call := mkCall f xdata ydata p0 maxfev in
    (scipy_curve_fit call, log ++ [call]).

(** Lines 114-134, from [xlarge_data] to the six values of the result. *)
Definition fit (xlarge_data : list record) : Py FitResult :=
  let noise := map noise_amplitude xlarge_data in
  let phi_max := map max_phi xlarge_data in
  try_except
    (' (popt, pcov) <- curve_fit (stochastic_resonance_model np) noise phi_max
                         p0 maxfev ;;
     let '(a, b, c) := popt in
     let residuals :=
       arr_sub phi_max
         (map (fun epsilon => stochastic_resonance_model np Element epsilon a b c)
            noise) in
     let ss_res := np_sum np (map pow2 residuals) in
     let ss_tot :=
       np_sum np
         (map pow2 (map (fun y => (y - np_mean np phi_max)%float) phi_max)) in
     let r_squared := (1 - ss_res / ss_tot)%float in
     let epsilon_opt :=
       if (b >? 0)%float then np_sqrt (1 / (2 * b))%float
       else 5.0%float in
     let phi_opt := stochastic_resonance_model np Scalar epsilon_opt a b c in
     ret (mkFitResult a b c r_squared epsilon_opt phi_opt))%py
    (phi_opt <- python_max phi_max ;;
     ret (mkFitResult 0.02 0.02 0.0 0 5.0 phi_opt))%py.

(** Line 113 and the fit: the observations are the records of the
    ['XLarge'] system. *)
Definition fig2_stochastic_resonance (results : list record) : Py FitResult :=
  let xlarge_data :=
    filter (fun r => String.eqb (system_size r) "XLarge") results in
  fit xlarge_data.

End Fit.

(** The call of line 118 on the observations. *)
Definition minimization_call (np : Numpy) (xlarge_data : list record) : Call :=
  mkCall (stochastic_resonance_model np)
    (map noise_amplitude xlarge_data) (map max_phi xlarge_data) p0 maxfev.

(** The outcome of the minimization step on the observations: what the
    fitting library answers to the call of line 118. *)
Definition minimization_outcome
    (scipy_curve_fit : Call -> result (popt_t * pcov_t)) (np : Numpy)
    (xlarge_data : list record) : result (popt_t * pcov_t) :=
  scipy_curve_fit (minimization_call np xlarge_data).

(** ** The sums of R^2, observation by observation *)

(** The squared residual of one observation, (y_i - f(x_i; a,b,c))^2,
    with f the model function of the code. *)
Definition squared_residual (np : Numpy) (a b c : float64) (r : record)
  : float64 :=
  pow2 (max_phi r
        - stochastic_resonance_model np Element (noise_amplitude r) a b c)%float.

(** SS_res: [np.sum] of the squared residuals of the observations. *)
Definition ss_res (np : Numpy) (d : list record) (a b c : float64) : float64 :=
  np_sum np (map (squared_residual np a b c) d).

(** The mean of the responses. *)
Definition mean_response (np : Numpy) (d : list record) : float64 :=
  np_mean np (map max_phi d).

(** SS_tot: [np.sum] of the squared deviations of the y_i from their
    mean. *)
Definition ss_tot (np : Numpy) (d : list record) : float64 :=
  np_sum np (map (fun r => pow2 (max_phi r - mean_response np d)%float) d).

(** The fallback result of lines 131-134, given the optimum value. *)
Definition spec_fallback (y_max : float64) : FitResult :=
  mkFitResult 0.02 0.02 0.0 0 5.0 y_max.

(** ** Sample libraries and observation sets *)

(** A fitting library that never converges. *)
Definition scipy_no_convergence : Call -> result (popt_t * pcov_t) :=
  fun _ =>
    Raise (RuntimeError "Optimal parameters not found: Number of calls to function has reached maxfev = 5000.").

(** A fitting library that answers a fixed popt, and rejects empty data
    as scipy does. *)
Definition scipy_answers (popt : popt_t) : Call -> result (popt_t * pcov_t) :=
  fun call =>
    match call_ydata call with
    | [] => Raise (ValueError "`ydata` must not be empty!")
    | _ :: _ => Ok (popt, [])
    end.

(** A platform for the examples: its power of a scalar is the square,
    its sum of a long array adds from left to right, and its exponential
    is cut after the second-order term.  No example states a value that
    depends on this exponential. *)
Definition numpy_sample : Numpy :=
  mkNumpy (fun _ x => 1 + x + x * x / 2)%float
          (fun x => x * x)%float
          (fun l => fold_left PrimFloat.add l neg_zero)
          true.

Definition sample_data : list record :=
  [mkRecord "XLarge" 0 0; mkRecord "XLarge" 5 3; mkRecord "XLarge" 10 1].

(** Observations whose responses are all 1. *)
Definition flat_data : list record :=
  [mkRecord "XLarge" 0 1; mkRecord "XLarge" 5 1; mkRecord "XLarge" 10 1].

(** Observations whose responses are all 0.1. *)
Definition tenth_data : list record :=
  [mkRecord "XLarge" 0 0.1; mkRecord "XLarge" 5 0.1; mkRecord "XLarge" 10 0.1].

(** Observations whose mean response is exactly 2. *)
Definition mean_data : list record :=
  [mkRecord "XLarge" 0 0; mkRecord "XLarge" 5 3; mkRecord "XLarge" 10 3].

(** ** The records of the result file and the data of the figures *)

(** The exceptions of subscripting a dict or a list. *)
Inductive lookup_error : Type :=
| KeyError (key : string)
| IndexError (msg : string).

(** A computation that reads the loaded records: a value, or the
    exception of a failed subscript. *)
Inductive pyres (A : Type) : Type :=
| Done (v : A)
| Failed (e : lookup_error).

Arguments Done {A} v.
Arguments Failed {A} e.

Definition and_then {A B} (m : pyres A) (k : A -> pyres B) : pyres B :=
  match m with
  | Done v => k v
  | Failed e => Failed e
  end.

Declare Scope sel_scope.
Delimit Scope sel_scope with sel.
Notation "x <- m ;; k" := (and_then m (fun x => k))
  (at level 61, m at next level, right associativity) : sel_scope.

(** An object of the array ['results'] as [json.load] returns it: a dict
    in which each of the keys the figures read may be absent; a key that
    is present holds a value of its JSON type. *)
Record json_record : Type := mkJson {
  js_system_size : option string;
  js_noise_level : option string;
  js_noise_amplitude : option float64;
  js_max_phi : option float64;
  js_effective_neurons : option Z
}.

(** [r[key]]: KeyError when the key is absent. *)
Definition subscript {A} (field : option A) (key : string) : pyres A :=
  match field with
  | Some v => Done v
  | None => Failed (KeyError key)
  end.

Definition get_system_size (r : json_record) : pyres string :=
  subscript (js_system_size r) "system_size".
Definition get_noise_level (r : json_record) : pyres string :=
  subscript (js_noise_level r) "noise_level".
Definition get_noise_amplitude (r : json_record) : pyres float64 :=
  subscript (js_noise_amplitude r) "noise_amplitude".
Definition get_max_phi (r : json_record) : pyres float64 :=
  subscript (js_max_phi r) "max_phi".
Definition get_effective_neurons (r : json_record) : pyres Z :=
  subscript (js_effective_neurons r) "effective_neurons".

(** [[elt(r) for r in l if cond(r)]]: the items are visited in order, the
    condition of an item is evaluated before its element, and the first
    exception ends the comprehension. *)
Fixpoint comprehension {A B} (elt : A -> pyres B) (cond : A -> pyres bool)
    (l : list A) : pyres (list B) :=
  match l with
  | [] => Done []
  | r :: rest =>
      (keep <- cond r ;;
       if keep : bool then
         v <- elt r ;;
         tail <- comprehension elt cond rest ;;
         Done (v :: tail)
       else comprehension elt cond rest)%sel
  end.

(** A comprehension without [if]. *)
Definition unconditional {A} (_ : A) : pyres bool := Done true.

(** [l[0]]. *)
Definition first_item {A} (l : list A) : pyres A :=
  match l with
  | x :: _ => Done x
  | [] => Failed (IndexError "list index out of range")
  end.

(** [enumerate(l)]. *)
Definition enumerate {A} (l : list A) : list (nat * A) :=
  combine (seq 0 (List.length l)) l.

(** [r['system_size'] == size]. *)
Definition has_size (size : string) (r : json_record) : pyres bool :=
  (s <- get_system_size r ;; Done (String.eqb s size))%sel.

(** [r['noise_level'] == level]. *)
Definition has_noise_level (level : string) (r : json_record) : pyres bool :=
  (l <- get_noise_level r ;; Done (String.eqb l level))%sel.

(** [r['system_size'] == 'XLarge' and r['noise_level'] == level]: the
    right operand is evaluated only when the left one is true. *)
Definition xlarge_at (level : string) (r : json_record) : pyres bool :=
  (s <- get_system_size r ;;
   if String.eqb s "XLarge" then
     l <- get_noise_level r ;; Done (String.eqb l level)
   else Done false)%sel.

(** *** Figure 1 (lines 77-92): one series per system size *)

Definition fig1_sizes : list string := ["Small"%string; "Medium"%string; "Large"%string; "XLarge"%string].
Definition fig1_colors : list string :=
  ["#1f77b4"%string; "#ff7f0e"%string; "#2ca02c"%string; "#d62728"%string].
Definition fig1_markers : list string := ["o"%string; "s"%string; "^"%string; "D"%string].

(** What one iteration of the loop hands to [ax.plot]. *)
Record series : Type := mkSeries {
  series_size : string;
  series_color : string;
  series_marker : string;
  series_noise : list float64;
  series_phi_max : list float64;
  series_neurons : Z
}.

(** The body of the loop, lines 86-90. *)
Definition fig1_series (results : list json_record)
    (size color marker : string) : pyres series :=
  (size_data <- comprehension Done (has_size size) results ;;
   noise <- comprehension get_noise_amplitude unconditional size_data ;;
   phi_max <- comprehension get_max_phi unconditional size_data ;;
   neurons <- match size_data with
              | r0 :: _ => get_effective_neurons r0
              | [] => Done 0%Z
              end ;;
   Done (mkSeries size color marker noise phi_max neurons))%sel.

(** The loop over [zip(sizes, colors, markers)]: the series plotted, in
    order, or the first exception. *)
Definition fig1_phi_vs_noise (results : list json_record) : pyres (list series) :=
  comprehension
    (fun scm : string * (string * string) =>
       fig1_series results (fst scm) (fst (snd scm)) (snd (snd scm)))
    unconditional
    (combine fig1_sizes (combine fig1_colors fig1_markers)).

(** *** Figure 2 (lines 113-115): the observations of the fit *)

(** The two arrays [noise] and [phi_max], as the records the fit reads
    them from.  These lines stand before the [try] block. *)
Definition fig2_observations (results : list json_record) : pyres (list record) :=
  (xlarge_data <- comprehension Done (has_size "XLarge") results ;;
   noise <- comprehension get_noise_amplitude unconditional xlarge_data ;;
   phi_max <- comprehension get_max_phi unconditional xlarge_data ;;
   Done (map (fun xy => mkRecord "XLarge" (fst xy) (snd xy))
           (combine noise phi_max)))%sel.

(** Lines 113-134 on the loaded records: an exception of lines 113-115,
    or the computation of the fit. *)
Definition fig2_stochastic_resonance_json
    (scipy_curve_fit : Call -> result (popt_t * pcov_t)) (np : Numpy)
    (results : list json_record) : pyres (Py FitResult) :=
  (xlarge_data <- fig2_observations results ;;
   Done (fit scipy_curve_fit np xlarge_data))%sel.

(** The record of the fit a complete JSON record stands for. *)
Definition typed (r : json_record) : option record :=
  match js_system_size r, js_noise_amplitude r, js_max_phi r with
  | Some s, Some x, Some y => Some (mkRecord s x y)
  | _, _, _ => None
  end.

(** *** Figure 3 (lines 166-186): the bars at the highest noise level *)

(** What the function hands to [ax.bar], [ax.set_xticks],
    [ax.set_xticklabels] (size and neurons of each label) and
    [ax.annotate] (index, height and neurons of each annotation). *)
Record bar_chart : Type := mkBarChart {
  bar_positions : list nat;
  bar_heights : list float64;
  tick_positions : list nat;
  tick_labels : list (string * Z);
  bar_annotations : list (nat * (float64 * Z))
}.

Definition fig3_system_scaling (results : list json_record) : pyres bar_chart :=
  (optimal_data <- comprehension Done (has_noise_level "Very High") results ;;
   neurons <- comprehension get_effective_neurons unconditional optimal_data ;;
   phi_max <- comprehension get_max_phi unconditional optimal_data ;;
   sizes <- comprehension get_system_size unconditional optimal_data ;;
   Done (mkBarChart (seq 0 (List.length sizes)) phi_max
           (seq 0 (List.length sizes)) (combine sizes neurons)
           (enumerate (combine phi_max neurons))))%sel.

(** *** Figure 4 (lines 194-203): the two bars of the XLarge system *)

(** [phi_values], the heights of the two bars. *)
Definition fig4_baseline_comparison (results : list json_record)
  : pyres (list float64) :=
  (baselines <- comprehension Done (xlarge_at "Baseline") results ;;
   xlarge_baseline <- first_item baselines ;;
   optimals <- comprehension Done (xlarge_at "Very High") results ;;
   xlarge_optimal <- first_item optimals ;;
   baseline_phi <- get_max_phi xlarge_baseline ;;
   optimal_phi <- get_max_phi xlarge_optimal ;;
   Done [baseline_phi; optimal_phi])%sel.


(** *** Saving a figure (lines 59-72) *)

(** Line 27. *)
Definition DPI : Z := 600%Z.

(** The arguments of one call [fig.savefig(file, format=..., dpi=...)]:
    the path of the file, the format and the resolution. *)
Record savefig_call (path : Type) : Type := mkSavefig {
  savefig_file : path;
  savefig_format : string;
  savefig_dpi : Z
}.

Arguments mkSavefig {path} _ _ _.
Arguments savefig_file {path} _.
Arguments savefig_format {path} _.
Arguments savefig_dpi {path} _.

(** What a run leaves behind: the calls made to [savefig], whether they
    returned or raised, and the lines printed. *)
Record world (path : Type) : Type := mkWorld {
  saved : list (savefig_call path);
  printed : list string
}.

Arguments mkWorld {path} _ _.
Arguments saved {path} _.
Arguments printed {path} _.

Definition IO (path A : Type) : Type := world path -> result A * world path.

Definition io_bind {path A B} (m : IO path A) (k : A -> IO path B) : IO path B :=
  fun w =>
    match m w with
    | (Ok v, w') => k v w'
    | (Raise e, w') => (Raise e, w')
    end.

Declare Scope io_scope.
Delimit Scope io_scope with io.
Notation "m1 ;; m2" := (io_bind m1 (fun _ => m2))
  (at level 61, right associativity) : io_scope.

Definition print {path} (line : string) : IO path unit :=
  fun w => (Ok tt, mkWorld (saved w) (printed w ++ [line])).

(** The world once the first [k] of the calls [files] are made and
    nothing more is printed. *)
Definition after_calls {path : Type} (files : list (savefig_call path))
    (w : world path) (k : nat) : world path :=
  mkWorld (saved w ++ firstn k files) (printed w).

Section SaveFigure.

(** The paths of pathlib, with the directory of the script
    ([Path(__file__).parent]) and the operator [/] that joins a path and
    a file name. *)
Variable path : Type.
Variable output_dir : path.
Variable joinpath : path -> string -> path.

(** [Figure.savefig] of matplotlib, as a function of the arguments it is
    called with and of what the run has done before: it returns or
    raises. *)
Variable matplotlib_savefig : savefig_call path -> world path -> result unit.

Definition savefig (file : path) (format : string) (dpi : Z) : IO path unit :=
  fun w =>
    let call := mkSavefig file format dpi in
    (matplotlib_savefig call w, mkWorld (saved w ++ [call]) (printed w)).

Definition save_figure (name : string) : IO path unit :=
  (savefig (joinpath output_dir (name ++ ".pdf")) "pdf" DPI ;;
   savefig (joinpath output_dir (name ++ ".png")) "png" DPI ;;
   savefig (joinpath output_dir (name ++ ".eps")) "eps" DPI ;;
   print ("Generated: " ++ name ++ ".pdf, " ++ name ++ ".png, " ++ name ++ ".eps"))%io.

(** The three calls of [save_figure], in order, and the line it prints. *)
Definition figure_files (name : string) : list (savefig_call path) :=
  [mkSavefig (joinpath output_dir (name ++ ".pdf")) "pdf" 600%Z;
   mkSavefig (joinpath output_dir (name ++ ".png")) "png" 600%Z;
   mkSavefig (joinpath output_dir (name ++ ".eps")) "eps" 600%Z].

Definition generated_line (name : string) : string :=
  ("Generated: " ++ name ++ ".pdf, " ++ name ++ ".png, " ++ name ++ ".eps")%string.

End SaveFigure.

Arguments savefig {path} _ _ _ _ _.
Arguments save_figure {path} _ _ _ _ _.
Arguments figure_files {path} _ _ _.

(** A matplotlib whose EPS backend fails, with paths as strings. *)
Definition savefig_no_eps : savefig_call string -> world string -> result unit :=
  fun call _ =>
    if String.eqb (savefig_format call) "eps"
    then Raise (RuntimeError "eps backend unavailable")
    else Ok tt.

Definition sample_joinpath (dir file : string) : string :=
  (dir ++ "/" ++ file)%string.

(** *** Vocabulary for the properties of the figures *)

(** The condition of a comprehension is true on an item. *)
Definition holds {A} (cond : A -> pyres bool) (r : A) : bool :=
  match cond r with
  | Done true => true
  | _ => false
  end.

(** A record of the XLarge system at a given noise level. *)
Definition is_xlarge_at (level : string) (r : json_record) : Prop :=
  js_system_size r = Some "XLarge"%string /\ js_noise_level r = Some level.

(** A record of one of the four systems figure 1 plots. *)
Definition plotted_system (r : json_record) : bool :=
  match js_system_size r with
  | Some s => existsb (String.eqb s) fig1_sizes
  | None => false
  end.

(** The number of points of the series of figure 1. *)
Definition plotted_points (ss : list series) : nat :=
  list_sum (map (fun s => List.length (series_noise s)) ss).

(** *** Sample records *)

Definition json_sample : list json_record :=
  [mkJson (Some "Small"%string) (Some "Baseline"%string) (Some 0%float) (Some 0%float) (Some 9%Z);
   mkJson (Some "XLarge"%string) (Some "Baseline"%string) (Some 0%float) (Some 0%float) (Some 729%Z);
   mkJson (Some "XLarge"%string) (Some "Very High"%string) (Some 5%float) (Some 3%float) (Some 729%Z);
   mkJson (Some "Small"%string) (Some "Very High"%string) (Some 5%float) (Some 1%float) (Some 9%Z);
   mkJson (Some "Tiny"%string) None None None None].

(** The sample without its incomplete record, and the records of the
    fit it stands for. *)
Definition json_complete_sample : list json_record := firstn 4 json_sample.

Definition typed_sample : list record :=
  [mkRecord "Small" 0%float 0%float; mkRecord "XLarge" 0%float 0%float;
   mkRecord "XLarge" 5%float 3%float; mkRecord "Small" 5%float 1%float].

(** What figures 1 and 3 make of the samples. *)
Definition fig1_sample_series : list series :=
  [mkSeries "Small" "#1f77b4" "o" [0%float; 5%float] [0%float; 1%float] 9;
   mkSeries "Medium" "#ff7f0e" "s" [] [] 0;
   mkSeries "Large" "#2ca02c" "^" [] [] 0;
   mkSeries "XLarge" "#d62728" "D" [0%float; 5%float] [0%float; 3%float] 729].

Definition fig3_sample_chart : bar_chart :=
  mkBarChart [0; 1]%nat [3%float; 1%float] [0; 1]%nat
    [("XLarge"%string, 729%Z); ("Small"%string, 9%Z)]
    [(0%nat, (3%float, 729%Z)); (1%nat, (1%float, 9%Z))].


(** ** Properties *)

(** *** The order of binary64 *)

Ltac sf_compare :=
  repeat match goal with
         | H : context [Pos.compare_cont Eq ?a ?b] |- _ =>
             change (Pos.compare_cont Eq a b) with (Pos.compare a b) in H
         | |- context [Pos.compare_cont Eq ?a ?b] =>
             change (Pos.compare_cont Eq a b) with (Pos.compare a b)
         end;
  repeat match goal with
         | H : context [Z.compare ?a ?b] |- _ => destruct (Z.compare_spec a b)
         | |- context [Z.compare ?a ?b] => destruct (Z.compare_spec a b)
         | H : context [Pos.compare ?a ?b] |- _ => destruct (Pos.compare_spec a b)
         | |- context [Pos.compare ?a ?b] => destruct (Pos.compare_spec a b)
         end;
  cbn in *; try discriminate; try reflexivity; try congruence; try lia.

Lemma SFltb_irrefl (x : spec_float) : SFltb x x = false.
Proof.
  unfold SFltb, SFcompare.
  destruct x as [s | s | | s m e]; try destruct s; try reflexivity; sf_compare.
Qed.

Lemma SFltb_trans (x y z : spec_float) :
  SFltb x y = true -> SFltb y z = true -> SFltb x z = true.
Proof.
  unfold SFltb, SFcompare.
  destruct x as [sx | sx | | sx mx ex], y as [sy | sy | | sy my ey],
    z as [sz | sz | | sz mz ez];
    try destruct sx; try destruct sy; try destruct sz;
    intros H1 H2; try discriminate; try reflexivity; sf_compare.
Qed.

Lemma SFltb_neg_trans (y cur m : spec_float) :
  cur <> S754_nan ->
  SFltb m y = true -> SFltb cur y = false -> SFltb m cur = true.
Proof.
  unfold SFltb, SFcompare. intros Hc.
  destruct y as [sx | sx | | sx mx ex], cur as [sy | sy | | sy my ey],
    m as [sz | sz | | sz mz ez];
    try destruct sx; try destruct sy; try destruct sz;
    intros H1 H2; try discriminate; try reflexivity; try congruence;
    sf_compare.
Qed.

Lemma SFleb_not_ltb (x y : spec_float) :
  SFleb x y = true -> SFltb y x = false.
Proof.
  unfold SFleb, SFltb, SFcompare.
  destruct x as [sx | sx | | sx mx ex], y as [sy | sy | | sy my ey];
    try destruct sx; try destruct sy;
    intros H1; try discriminate; try reflexivity; sf_compare.
Qed.

Lemma SFnot_ltb_leb (x y : spec_float) :
  x <> S754_nan -> y <> S754_nan -> SFltb y x = false -> SFleb x y = true.
Proof.
  unfold SFleb, SFltb, SFcompare. intros Hx Hy.
  destruct x as [sx | sx | | sx mx ex], y as [sy | sy | | sy my ey];
    try destruct sx; try destruct sy;
    intros H1; try discriminate; try reflexivity; try congruence; sf_compare.
Qed.

(** Two numbers neither of which is below the other are the same number,
    unless they are the two zeros. *)
Lemma SFltb_antisym (x y : spec_float) :
  x <> S754_nan -> y <> S754_nan ->
  x <> S754_zero true -> y <> S754_zero true ->
  SFltb x y = false -> SFltb y x = false -> x = y.
Proof.
  unfold SFltb, SFcompare. intros Hx Hy Hzx Hzy.
  destruct x as [sx | sx | | sx mx ex], y as [sy | sy | | sy my ey];
    try destruct sx; try destruct sy;
    intros H1 H2; try discriminate; try reflexivity; try congruence;
    sf_compare; subst; try reflexivity; try lia.
Qed.

Lemma SFltb_nan_l (x : spec_float) : SFltb S754_nan x = false.
Proof. reflexivity. Qed.

Lemma SFltb_nan_r (x : spec_float) : SFltb x S754_nan = false.
Proof. destruct x as [s | s | | s m e]; try destruct s; reflexivity. Qed.

Lemma Prim2SF_nan (x : float64) : Prim2SF x = S754_nan -> x = nan.
Proof. intros H. apply Prim2SF_inj. rewrite H. reflexivity. Qed.

Lemma Prim2SF_not_nan (x : float64) : x <> nan -> Prim2SF x <> S754_nan.
Proof. intros H Hx. exact (H (Prim2SF_nan x Hx)). Qed.

Lemma Prim2SF_not_neg_zero (x : float64) :
  x <> neg_zero -> Prim2SF x <> S754_zero true.
Proof. intros H Hx. apply H. apply Prim2SF_inj. rewrite Hx. reflexivity. Qed.

Lemma gtb_SF (x y : float64) : (x >? y)%float = SFltb (Prim2SF y) (Prim2SF x).
Proof. unfold gtb. apply FloatAxioms.ltb_spec. Qed.

Lemma gtb_irrefl (x : float64) : (x >? x)%float = false.
Proof. rewrite gtb_SF. apply SFltb_irrefl. Qed.

Lemma gtb_trans (x y z : float64) :
  (x >? y)%float = true -> (y >? z)%float = true -> (x >? z)%float = true.
Proof.
  rewrite !gtb_SF. intros H1 H2. exact (SFltb_trans _ _ _ H2 H1).
Qed.

(** An item that does not replace the running maximum [cur], and yet is
    greater than [m]: then [cur] is greater than [m]. *)
Lemma gtb_neg_trans (y cur m : float64) :
  cur <> nan ->
  (y >? m)%float = true -> (y >? cur)%float = false -> (cur >? m)%float = true.
Proof.
  rewrite !gtb_SF. intros Hc. apply SFltb_neg_trans.
  exact (Prim2SF_not_nan _ Hc).
Qed.

Lemma gtb_nan_r (x : float64) : (x >? nan)%float = false.
Proof. rewrite gtb_SF. apply SFltb_nan_l. Qed.

Lemma gtb_nan_l (x : float64) : (nan >? x)%float = false.
Proof. rewrite gtb_SF. apply SFltb_nan_r. Qed.

Lemma gtb_false_of_leb (x y : float64) :
  (x <=? y)%float = true -> (x >? y)%float = false.
Proof.
  rewrite gtb_SF, FloatAxioms.leb_spec. apply SFleb_not_ltb.
Qed.

Lemma leb_of_gtb_false (x y : float64) :
  x <> nan -> y <> nan -> (x >? y)%float = false -> (x <=? y)%float = true.
Proof.
  rewrite gtb_SF, FloatAxioms.leb_spec. intros Hx Hy.
  apply SFnot_ltb_leb; apply Prim2SF_not_nan; assumption.
Qed.

Lemma gtb_antisym (x y : float64) :
  x <> nan -> y <> nan -> x <> neg_zero -> y <> neg_zero ->
  (x >? y)%float = false -> (y >? x)%float = false -> x = y.
Proof.
  rewrite !gtb_SF. intros Hx Hy Hzx Hzy H1 H2. apply Prim2SF_inj.
  apply SFltb_antisym; auto using Prim2SF_not_nan, Prim2SF_not_neg_zero.
Qed.

(** Two float64 that a comparison tells apart are different. *)
Lemma eqb_false_neq (x y : float64) : (x =? y)%float = false -> x <> nan -> x <> y.
Proof.
  intros H Hx Heq. subst y.
  rewrite FloatAxioms.eqb_spec in H.
  pose proof (Prim2SF_not_nan x Hx) as Hn.
  unfold SFeqb, SFcompare in H.
  destruct (Prim2SF x) as [s | s | | s m e]; try destruct s;
    try discriminate; try congruence; sf_compare.
Qed.

(** *** Products and quotients *)

Lemma SFopp_round_aux (s : bool) (m e : Z) (l : location) :
  SFopp (binary_round_aux prec emax s m e l)
  = binary_round_aux prec emax (negb s) m e l.
Proof.
  unfold binary_round_aux.
  destruct (shr_fexp prec emax m e l) as [mrs' e'].
  destruct (shr_fexp prec emax _ e' loc_Exact) as [mrs'' e''].
  destruct (shr_m mrs''); try reflexivity.
  destruct (Z.leb e'' (emax - prec)); reflexivity.
Qed.

Lemma SFmul_opp (x y : spec_float) :
  SF64mul (SFopp x) y = SFopp (SF64mul x y).
Proof.
  unfold SF64mul, SFmul.
  destruct x as [sx | sx | | sx mx ex], y as [sy | sy | | sy my ey];
    cbn [SFopp]; try reflexivity; try (destruct sx, sy; reflexivity).
  rewrite SFopp_round_aux. destruct sx, sy; reflexivity.
Qed.

(** [(-b) * y] and [-(b * y)] are the same float64: rounding to nearest
    is symmetric. *)
Lemma mul_opp (b y : float64) : ((- b) * y = - (b * y))%float.
Proof.
  apply Prim2SF_inj.
  rewrite FloatAxioms.mul_spec, !FloatAxioms.opp_spec, FloatAxioms.mul_spec.
  apply SFmul_opp.
Qed.

(** A quotient by zero is [nan] or an infinity. *)
Lemma div_zero (s z : float64) :
  (z =? 0)%float = true ->
  (s / z = nan \/ s / z = infinity \/ s / z = neg_infinity)%float.
Proof.
  intros Hz. rewrite FloatAxioms.eqb_spec in Hz.
  assert (Hcase : exists sz, Prim2SF z = S754_zero sz).
  { change (Prim2SF 0) with (S754_zero false) in Hz.
    unfold SFeqb, SFcompare in Hz.
    destruct (Prim2SF z) as [sz | sz | | sz mz ez]; try discriminate.
    - exists sz; reflexivity.
    - destruct sz; discriminate.
    - destruct sz; discriminate. }
  destruct Hcase as [sz Hsz].
  assert (H : Prim2SF (s / z) = S754_nan \/
              Prim2SF (s / z) = S754_infinity false \/
              Prim2SF (s / z) = S754_infinity true).
  { rewrite FloatAxioms.div_spec, Hsz. unfold SF64div, SFdiv.
    destruct (Prim2SF s) as [ss | ss | | ss ms es]; auto;
      destruct ss, sz; cbn; auto. }
  destruct H as [H | [H | H]]; [left | right; left | right; right];
    apply Prim2SF_inj; rewrite H; reflexivity.
Qed.

(** 1 - s/0 is [nan] or an infinity: never a finite number. *)
Lemma one_minus_div_zero (s z : float64) :
  (z =? 0)%float = true ->
  (1 - s / z = nan \/ 1 - s / z = neg_infinity \/ 1 - s / z = infinity)%float.
Proof.
  intros Hz. destruct (div_zero s z Hz) as [H | [H | H]]; rewrite H.
  - left; reflexivity.
  - right; left; reflexivity.
  - right; right; reflexivity.
Qed.

(** *** The builtin max *)

Lemma max_loop_nan (rest : list float64) : max_loop nan rest = nan.
Proof.
  induction rest as [| y rest IH]; simpl; [reflexivity |].
  rewrite gtb_nan_r. exact IH.
Qed.

Lemma max_loop_In (rest : list float64) :
  forall cur, In (max_loop cur rest) (cur :: rest).
Proof.
  induction rest as [| y rest IH]; intros cur; simpl.
  - left; reflexivity.
  - specialize (IH (if (y >? cur)%float then y else cur)).
    destruct (y >? cur)%float; simpl in IH; tauto.
Qed.

Lemma max_loop_upper (rest : list float64) :
  forall cur y, In y (cur :: rest) -> (y >? max_loop cur rest)%float = false.
Proof.
  induction rest as [| z rest IH]; intros cur y Hy.
  - destruct Hy as [<- | []]. apply gtb_irrefl.
  - cbn [max_loop].
    destruct (z >? cur)%float eqn:Hz.
    + destruct Hy as [<- | Hy].
      * destruct (cur >? max_loop z rest)%float eqn:Hc; [| reflexivity].
        rewrite <- (IH z z (or_introl eq_refl)).
        symmetry. exact (gtb_trans _ _ _ Hz Hc).
      * apply IH. exact Hy.
    + destruct Hy as [<- | [<- | Hy]].
      * apply IH. left; reflexivity.
      * destruct (z >? max_loop cur rest)%float eqn:Hm; [| reflexivity].
        assert (Hnan : cur <> nan).
        { intros Heq. subst cur. rewrite max_loop_nan, gtb_nan_r in Hm.
          discriminate. }
        rewrite <- (IH cur cur (or_introl eq_refl)).
        symmetry. exact (gtb_neg_trans _ _ _ Hnan Hm Hz).
      * apply IH. right; exact Hy.
Qed.

(** The builtin [max] returns [nan] exactly when its first item is [nan]:
    a later [nan] never replaces the running maximum. *)
Lemma max_loop_nan_iff (rest : list float64) :
  forall cur, max_loop cur rest = nan <-> cur = nan.
Proof.
  induction rest as [| y rest IH]; intros cur; [reflexivity |].
  cbn [max_loop]. rewrite IH.
  destruct (y >? cur)%float eqn:Hy; [| reflexivity].
  split; intros Heq; subst.
  - rewrite gtb_nan_l in Hy. discriminate.
  - rewrite gtb_nan_r in Hy. discriminate.
Qed.

(** On a non-empty sequence the builtin [max] returns an element no other
    element is greater than, and leaves the log as it is. *)
Lemma python_max_nonempty (l : list float64) (log : list Call) :
  l <> [] ->
  exists m, python_max l log = (Ok m, log) /\ In m l /\
            forall y, In y l -> (y >? m)%float = false.
Proof.
  destruct l as [| y rest]; [congruence |]. intros _.
  exists (max_loop y rest). split; [reflexivity |]. split.
  - apply max_loop_In.
  - apply max_loop_upper.
Qed.

(** *** The two branches of the fit *)

Section FitProperties.

Variable scipy_curve_fit : Call -> result (popt_t * pcov_t).
Variable np : Numpy.

(** When the minimization raises, the fit is the handler of line 130. *)
Lemma fit_except (d : list record) (e : exception) :
  minimization_outcome scipy_curve_fit np d = Raise e ->
  outcome (fit scipy_curve_fit np d)
  = fst ((phi_opt <- python_max (map max_phi d) ;;
          ret (spec_fallback phi_opt))%py
           [minimization_call np d]).
Proof.
  unfold minimization_outcome, minimization_call, outcome, fit, try_except,
    curve_fit.
  intros H. unfold bind at 1. cbn [app]. rewrite H. reflexivity.
Qed.

(** When the minimization returns, the fit is the rest of the [try] block,
    which raises nothing. *)
Lemma fit_try (d : list record) (a b c : float64) (pcov : pcov_t) :
  minimization_outcome scipy_curve_fit np d = Ok ((a, b, c), pcov) ->
  exists r, returns (fit scipy_curve_fit np d) r /\
    fit_a r = a /\ fit_b r = b /\ fit_c r = c /\
    r_squared r =
      (1 -
       np_sum np
         (map pow2
            (arr_sub (map max_phi d)
               (map (fun epsilon =>
                       stochastic_resonance_model np Element epsilon a b c)
                  (map noise_amplitude d)))) /
       np_sum np
         (map pow2
            (map (fun y => y - np_mean np (map max_phi d))
               (map max_phi d))))%float /\
    epsilon_opt r =
      (if (b >? 0)%float then np_sqrt (1 / (2 * b))%float else 5.0%float) /\
    phi_opt r = stochastic_resonance_model np Scalar (epsilon_opt r) a b c.
Proof.
  unfold minimization_outcome, minimization_call, returns, outcome, fit,
    try_except, curve_fit.
  intros H. unfold bind at 1. cbn [app]. rewrite H. cbn [fst ret].
  eexists. split; [reflexivity |]. cbn. repeat split; reflexivity.
Qed.

Lemma fit_calls (d : list record) :
  calls (fit scipy_curve_fit np d) = [minimization_call np d].
Proof.
  unfold calls, fit, try_except, curve_fit, minimization_call.
  unfold bind at 1. cbn [app].
  destruct (scipy_curve_fit _) as [[[[a b] c] pcov] | e].
  - reflexivity.
  - unfold bind. destruct (map max_phi d); reflexivity.
Qed.

(** The arrays of the code and the sums over the observations. *)
Lemma residuals_per_observation (d : list record) (a b c : float64) :
  map pow2
    (arr_sub (map max_phi d)
       (map (fun epsilon => stochastic_resonance_model np Element epsilon a b c)
          (map noise_amplitude d)))
  = map (squared_residual np a b c) d.
Proof.
  induction d as [| r d IH]; [reflexivity |].
  cbn [map arr_sub]. rewrite IH. reflexivity.
Qed.

Lemma deviations_per_observation (d : list record) (m : float64) :
  map pow2 (map (fun y => (y - m)%float) (map max_phi d))
  = map (fun r => pow2 (max_phi r - m)%float) d.
Proof. rewrite !map_map. reflexivity. Qed.

(** The R^2 of the [try] block is 1 - SS_res / SS_tot. *)
Lemma fit_try_r_squared (d : list record) (a b c : float64) (pcov : pcov_t) :
  minimization_outcome scipy_curve_fit np d = Ok ((a, b, c), pcov) ->
  exists r, returns (fit scipy_curve_fit np d) r /\
    fit_a r = a /\ fit_b r = b /\ fit_c r = c /\
    r_squared r = (1 - ss_res np d a b c / ss_tot np d)%float.
Proof.
  intros Hm.
  destruct (fit_try _ _ _ _ _ Hm) as [r [Hr [Ha [Hb [Hc [Hr2 _]]]]]].
  exists r. repeat (split; [assumption |]).
  rewrite Hr2, residuals_per_observation, deviations_per_observation.
  reflexivity.
Qed.

(** On a non-empty observation set both branches of the fit return. *)
Lemma fit_nonempty_returns (d : list record) :
  d <> [] -> exists r, returns (fit scipy_curve_fit np d) r.
Proof.
  intros Hne.
  destruct (minimization_outcome scipy_curve_fit np d)
    as [[[[a b] c] pcov] | e] eqn:Hm.
  - destruct (fit_try _ _ _ _ _ Hm) as [r [Hr _]]. exists r. exact Hr.
  - assert (Hys : map max_phi d <> []) by (destruct d; simpl; congruence).
    destruct (python_max_nonempty _ [minimization_call np d] Hys)
      as [m [Hmax _]].
    exists (spec_fallback m). unfold returns.
    rewrite (fit_except _ _ Hm). unfold bind. rewrite Hmax. reflexivity.
Qed.

End FitProperties.

Lemma returns_not_raises {A} (m : Py A) (v : A) (e : exception) :
  returns m v -> ~ raises m e.
Proof. unfold returns, raises. congruence. Qed.

Lemma scipy_answers_nonempty (popt : popt_t) (np : Numpy) (d : list record) :
  d <> [] -> minimization_outcome (scipy_answers popt) np d = Ok (popt, []).
Proof.
  destruct d as [| r d]; [congruence |]. reflexivity.
Qed.

Lemma sample_data_nonempty : sample_data <> [].
Proof. discriminate. Qed.

(** Two float64 constants with different bits are different. *)
Ltac float_neq :=
  let H := fresh in
  intros H; apply (f_equal Prim2SF) in H; vm_compute in H; discriminate.

(** The two ways a platform starts its sums. *)
Ltac numpy_cases np := destruct np as [? ? ? []].

(** *** The claims of the specification *)

(** C1: on a non-empty observation set the fit returns a FitResult with
    its six fields (a, b, c, R^2, optimum location, optimum value) and
    raises no exception, whatever the minimization does: raise, or return
    any parameters, finite or not. *)
Theorem fit_always_returns
    (scipy_curve_fit : Call -> result (popt_t * pcov_t)) (np : Numpy)
    (d : list record) :
  d <> [] ->
  (exists r, returns (fit scipy_curve_fit np d) r) /\
  (forall e, ~ raises (fit scipy_curve_fit np d) e).
Proof.
  intros Hne.
  destruct (fit_nonempty_returns scipy_curve_fit np d Hne) as [r Hr].
  split; [exists r; exact Hr |].
  intros e. exact (returns_not_raises _ _ e Hr).
Qed.

Lemma fit_always_returns_witness :
  (exists r, returns (fit scipy_no_convergence numpy_sample sample_data) r) /\
  (forall e, ~ raises (fit scipy_no_convergence numpy_sample sample_data) e).
Proof.
  apply (fit_always_returns scipy_no_convergence numpy_sample sample_data).
  discriminate.
Defined.

(** C2: when the minimization step raises, whatever the exception, the fit
    on a non-empty observation set returns the fallback: a = 0.02,
    b = 0.02, c = 0.0, R^2 = 0, optimum location 5.0, and as optimum value
    the maximum of the observed y: an observed y that no observed y is
    greater than (when no observed y is nan, one that every observed y is
    less than or equal to). *)
Theorem fit_fallback_on_exception
    (scipy_curve_fit : Call -> result (popt_t * pcov_t)) (np : Numpy)
    (d : list record) (e : exception) :
  d <> [] ->
  minimization_outcome scipy_curve_fit np d = Raise e ->
  exists y_max,
    returns (fit scipy_curve_fit np d)
      (mkFitResult 0.02 0.02 0.0 0 5.0 y_max) /\
    In y_max (map max_phi d) /\
    (forall y, In y (map max_phi d) -> (y >? y_max)%float = false) /\
    ((forall y, In y (map max_phi d) -> y <> nan) ->
     forall y, In y (map max_phi d) -> (y <=? y_max)%float = true).
Proof.
  intros Hne Hm.
  assert (Hys : map max_phi d <> []) by (destruct d; simpl; congruence).
  destruct (python_max_nonempty _ [minimization_call np d] Hys)
    as [m [Hmax [Hin Hup]]].
  exists m. split; [| split; [exact Hin | split; [exact Hup |]]].
  - unfold returns. rewrite (fit_except _ _ _ _ Hm). unfold bind.
    rewrite Hmax. reflexivity.
  - intros Hnan y Hy. apply leb_of_gtb_false; auto.
Qed.

Lemma fit_fallback_on_exception_witness :
  exists y_max,
    returns (fit scipy_no_convergence numpy_sample sample_data)
      (mkFitResult 0.02 0.02 0.0 0 5.0 y_max) /\
    In y_max (map max_phi sample_data) /\
    (forall y, In y (map max_phi sample_data) -> (y >? y_max)%float = false) /\
    ((forall y, In y (map max_phi sample_data) -> y <> nan) ->
     forall y, In y (map max_phi sample_data) -> (y <=? y_max)%float = true).
Proof.
  apply (fit_fallback_on_exception scipy_no_convergence numpy_sample sample_data
           (RuntimeError "Optimal parameters not found: Number of calls to function has reached maxfev = 5000.")).
  - discriminate.
  - reflexivity.
Defined.

(** C3, as stated, fails: for a positive damping below 2^-1025 the
    quotient 1/(2.b) overflows, the fit returns the location +inf and the
    value nan; for a damping above 2^1023 the product 2.b overflows and
    the fit returns the location 0.  In both cases sqrt(1/(2.b)) is a
    positive number well inside the range of float64. *)
Lemma optimum_location_overflows :
  (forall (np : Numpy) (d : list record), d <> [] ->
     exists r,
       returns (fit (scipy_answers (1, 1e-320, 0)%float) np d) r /\
       epsilon_opt r = infinity /\ phi_opt r = nan) /\
  (forall (np : Numpy) (d : list record), d <> [] ->
     exists r,
       returns (fit (scipy_answers (1, 1e308, 0)%float) np d) r /\
       epsilon_opt r = 0%float /\ phi_opt r = 0%float).
Proof.
  split; intros np d Hne.
  - destruct (fit_try _ np d _ _ _ _
                (scipy_answers_nonempty (1, 1e-320, 0)%float np d Hne))
      as [r [Hr [_ [_ [_ [_ [Heps Hphi]]]]]]].
    assert (He : epsilon_opt r = infinity) by (rewrite Heps; reflexivity).
    exists r. split; [exact Hr |]. split; [exact He |].
    rewrite Hphi, He. reflexivity.
  - destruct (fit_try _ np d _ _ _ _
                (scipy_answers_nonempty (1, 1e308, 0)%float np d Hne))
      as [r [Hr [_ [_ [_ [_ [Heps Hphi]]]]]]].
    assert (He : epsilon_opt r = 0%float) by (rewrite Heps; reflexivity).
    exists r. split; [exact Hr |]. split; [exact He |].
    rewrite Hphi, He. reflexivity.
Qed.

(** C3, amended: when the minimization returns parameters whose damping b
    is strictly positive, the fit returns as optimum location the float64
    np.sqrt(1 / (2 * b)), each operation rounded to binary64, and as
    optimum value the model function at that location with the fitted
    parameters. *)
Theorem fit_optimum_positive_damping
    (scipy_curve_fit : Call -> result (popt_t * pcov_t)) (np : Numpy)
    (d : list record) (a b c : float64) (pcov : pcov_t) :
  minimization_outcome scipy_curve_fit np d = Ok ((a, b, c), pcov) ->
  (0 <? b)%float = true ->
  exists r,
    returns (fit scipy_curve_fit np d) r /\
    fit_a r = a /\ fit_b r = b /\ fit_c r = c /\
    epsilon_opt r = np_sqrt (1 / (2 * b))%float /\
    phi_opt r
    = stochastic_resonance_model np Scalar (np_sqrt (1 / (2 * b))%float) a b c.
Proof.
  intros Hm Hb.
  destruct (fit_try _ _ _ _ _ _ _ Hm) as [r [Hr [Ha [Hb' [Hc [_ [Heps Hphi]]]]]]].
  unfold gtb in Heps. rewrite Hb in Heps.
  exists r. repeat (split; [assumption |]).
  rewrite Hphi, Heps. reflexivity.
Qed.

Lemma fit_optimum_positive_damping_witness :
  exists r,
    returns (fit (scipy_answers (0.02, 0.02, 0)%float) numpy_sample sample_data) r /\
    fit_a r = 0.02%float /\ fit_b r = 0.02%float /\ fit_c r = 0%float /\
    epsilon_opt r = np_sqrt (1 / (2 * 0.02))%float /\
    phi_opt r
    = stochastic_resonance_model numpy_sample Scalar
        (np_sqrt (1 / (2 * 0.02))%float) 0.02 0.02 0.
Proof.
  apply (fit_optimum_positive_damping (scipy_answers (0.02, 0.02, 0)%float)
           numpy_sample sample_data 0.02%float 0.02%float 0%float []).
  - reflexivity.
  - reflexivity.
Defined.

(** C4, as stated, fails: with the finite parameters (0, -100, 7) on
    three finite observations whose SS_tot is not zero, the exponential
    overflows at x = 5, the residual there is 0.inf = nan, and the fit
    returns R^2 = nan, where the sums of the specification give
    1 - 101/SS_tot. *)
Lemma r_squared_nan_on_finite_fit :
  (forall np : Numpy,
     exists r,
       returns (fit (scipy_answers (0, -100, 7)%float) np sample_data) r /\
       r_squared r = nan) /\
  (forall np : Numpy, (ss_tot np sample_data =? 0)%float = false) /\
  (forall np : Numpy,
     squared_residual np 0 (-100) 7 (mkRecord "XLarge" 5 3) = nan).
Proof.
  split; [| split]; intros np.
  - destruct (fit_try_r_squared _ np sample_data _ _ _ _
                (scipy_answers_nonempty (0, -100, 7)%float np sample_data
                   sample_data_nonempty))
      as [r [Hr [_ [_ [_ Hr2]]]]].
    exists r. split; [exact Hr |]. rewrite Hr2.
    numpy_cases np; reflexivity.
  - numpy_cases np; reflexivity.
  - reflexivity.
Qed.

(** C4, amended: when the minimization returns, the fit returns
    R^2 = 1 - SS_res / SS_tot computed in float64: SS_res is np.sum of the
    squared residuals y_i - f(x_i; a,b,c), with f the model function of
    the code, and SS_tot is np.sum of the squared deviations of the y_i
    from their np.mean; every operation rounds to binary64. *)
Theorem fit_r_squared
    (scipy_curve_fit : Call -> result (popt_t * pcov_t)) (np : Numpy)
    (d : list record) (a b c : float64) (pcov : pcov_t) :
  minimization_outcome scipy_curve_fit np d = Ok ((a, b, c), pcov) ->
  exists r,
    returns (fit scipy_curve_fit np d) r /\
    r_squared r
    = (1 - np_sum np (map (fun r => pow2 (max_phi r
                                          - stochastic_resonance_model np Element
                                              (noise_amplitude r) a b c)) d)
         / np_sum np (map (fun r => pow2 (max_phi r
                                          - np_sum np (map max_phi d)
                                            / F64.of_nat (List.length d))) d))%float.
Proof.
  intros Hm.
  destruct (fit_try_r_squared _ _ _ _ _ _ _ Hm) as [r [Hr [_ [_ [_ Hr2]]]]].
  exists r. split; [exact Hr |]. rewrite Hr2.
  unfold ss_res, ss_tot, squared_residual, mean_response, np_mean.
  rewrite length_map. reflexivity.
Qed.

Lemma fit_r_squared_witness :
  exists r,
    returns (fit (scipy_answers (0, 0, 1)%float) numpy_sample sample_data) r /\
    r_squared r
    = (1 - np_sum numpy_sample
             (map (fun r => pow2 (max_phi r
                                  - stochastic_resonance_model numpy_sample Element
                                      (noise_amplitude r) 0 0 1)) sample_data)
         / np_sum numpy_sample
             (map (fun r => pow2 (max_phi r
                                  - np_sum numpy_sample (map max_phi sample_data)
                                    / F64.of_nat (List.length sample_data)))
                sample_data))%float.
Proof.
  apply (fit_r_squared (scipy_answers (0, 0, 1)%float) numpy_sample sample_data
           0%float 0%float 1%float []).
  reflexivity.
Defined.

(** C5, as stated, fails: f(5; 0, -100, 7) is 7, and the model function
    returns nan (the exponential overflows and 0.inf is nan);
    f(30; 1, -1, 0) is a real number, and the model function returns
    +inf. *)
Lemma model_not_a_number :
  (forall np : Numpy,
     stochastic_resonance_model np Element 5 0 (-100) 7 = nan) /\
  (forall np : Numpy,
     stochastic_resonance_model np Element 30 1 (-1) 0 = infinity).
Proof. split; intros np; reflexivity. Qed.

(** C5, amended: for all float64 x, a, b, c the model function returns
    a.x.exp(-(b.x^2)) + c evaluated in binary64 from left to right: each
    product and the sum are rounded, and np.exp is the exponential of the
    platform.  On the elements of an array x^2 is the rounded product
    x.x. *)
Theorem stochastic_resonance_model_spec (np : Numpy) (x a b c : float64) :
  (forall k,
     stochastic_resonance_model np k x a b c
     = (a * x * np_exp np k (- (b * power2 np k x)) + c)%float) /\
  stochastic_resonance_model np Element x a b c
  = (a * x * np_exp np Element (- (b * (x * x))) + c)%float.
Proof.
  split; [intros k |]; unfold stochastic_resonance_model;
    rewrite mul_opp; reflexivity.
Qed.

(** C6: when the minimization returns parameters whose damping b is less
    than or equal to zero, the fit does not fail: it returns, with the
    fixed constant 5.0 as optimum location. *)
Theorem fit_optimum_nonpositive_damping
    (scipy_curve_fit : Call -> result (popt_t * pcov_t)) (np : Numpy)
    (d : list record) (a b c : float64) (pcov : pcov_t) :
  minimization_outcome scipy_curve_fit np d = Ok ((a, b, c), pcov) ->
  (b <=? 0)%float = true ->
  exists r,
    returns (fit scipy_curve_fit np d) r /\
    (forall e, ~ raises (fit scipy_curve_fit np d) e) /\
    epsilon_opt r = 5.0%float.
Proof.
  intros Hm Hb.
  destruct (fit_try _ _ _ _ _ _ _ Hm) as [r [Hr [_ [_ [_ [_ [Heps _]]]]]]].
  rewrite (gtb_false_of_leb _ _ Hb) in Heps.
  exists r. split; [exact Hr |]. split; [| exact Heps].
  intros e. exact (returns_not_raises _ _ e Hr).
Qed.

Lemma fit_optimum_nonpositive_damping_witness :
  exists r,
    returns (fit (scipy_answers (1, -2, 0)%float) numpy_sample sample_data) r /\
    (forall e, ~ raises (fit (scipy_answers (1, -2, 0)%float) numpy_sample
                           sample_data) e) /\
    epsilon_opt r = 5.0%float.
Proof.
  apply (fit_optimum_nonpositive_damping
           (scipy_answers (1, -2, 0)%float) numpy_sample sample_data
           1%float (-2)%float 0%float []).
  - reflexivity.
  - reflexivity.
Defined.

Lemma no_xlarge_record (results : list record) :
  (forall r, In r results -> system_size r <> "XLarge"%string) ->
  filter (fun r => String.eqb (system_size r) "XLarge") results = [].
Proof.
  induction results as [| r results IH]; intros H; [reflexivity |].
  simpl. destruct (String.eqb_spec (system_size r) "XLarge") as [Heq | _].
  - exfalso. exact (H r (or_introl eq_refl) Heq).
  - apply IH. intros r' Hr'. apply H. right; exact Hr'.
Qed.

(** C8: on an empty observation set (no record of the XLarge system),
    which the fitting library rejects with an exception, the fit builds no
    fallback result: the handler's [max] of the empty set raises
    ValueError and the exception reaches the caller. *)
Theorem fit_empty_raises
    (scipy_curve_fit : Call -> result (popt_t * pcov_t)) (np : Numpy)
    (results : list record) (e : exception) :
  (forall r, In r results -> system_size r <> "XLarge"%string) ->
  minimization_outcome scipy_curve_fit np [] = Raise e ->
  raises (fig2_stochastic_resonance scipy_curve_fit np results)
    (ValueError "max() arg is an empty sequence") /\
  raises (fit scipy_curve_fit np [])
    (ValueError "max() arg is an empty sequence") /\
  forall r, ~ returns (fig2_stochastic_resonance scipy_curve_fit np results) r.
Proof.
  intros Hno Hm.
  assert (Hfit : raises (fit scipy_curve_fit np [])
                   (ValueError "max() arg is an empty sequence")).
  { unfold raises. rewrite (fit_except _ _ _ _ Hm). reflexivity. }
  assert (Hfig : raises (fig2_stochastic_resonance scipy_curve_fit np results)
                   (ValueError "max() arg is an empty sequence")).
  { unfold fig2_stochastic_resonance. rewrite (no_xlarge_record _ Hno).
    exact Hfit. }
  repeat split; try assumption.
  intros r Hr. unfold returns, raises in *. congruence.
Qed.

Lemma fit_empty_raises_witness :
  raises (fig2_stochastic_resonance (scipy_answers (1, 2, 0)%float) numpy_sample
            [mkRecord "Small" 5 3])
    (ValueError "max() arg is an empty sequence") /\
  raises (fit (scipy_answers (1, 2, 0)%float) numpy_sample [])
    (ValueError "max() arg is an empty sequence") /\
  forall r, ~ returns (fig2_stochastic_resonance (scipy_answers (1, 2, 0)%float)
                         numpy_sample [mkRecord "Small" 5 3]) r.
Proof.
  apply (fit_empty_raises (scipy_answers (1, 2, 0)%float) numpy_sample
           [mkRecord "Small" 5 3]
           (ValueError "`ydata` must not be empty!")).
  - intros r [<- | []]. simpl. discriminate.
  - reflexivity.
Defined.

(** C9: the fit invokes the minimization once, with the model function,
    the observations, the initial guess (0.02, 0.02, 0.0) and the cap of
    5000 function evaluations; so with a library that spends at most
    [maxfev] evaluations on the calls the fit makes, the fit spends at
    most 5000. *)
Theorem fit_minimization_call
    (scipy_curve_fit : Call -> result (popt_t * pcov_t)) (np : Numpy)
    (d : list record) (nfev : Call -> Z) :
  (forall call, In call (calls (fit scipy_curve_fit np d)) ->
                (nfev call <= call_maxfev call)%Z) ->
  calls (fit scipy_curve_fit np d)
  = [mkCall (stochastic_resonance_model np) (map noise_amplitude d)
       (map max_phi d) [0.02; 0.02; 0.0]%float 5000%Z] /\
  (fold_right Z.add 0%Z (map nfev (calls (fit scipy_curve_fit np d))) <= 5000)%Z.
Proof.
  intros Hcap. rewrite fit_calls in *. split; [reflexivity |].
  cbn [map fold_right].
  specialize (Hcap (minimization_call np d) (or_introl eq_refl)).
  change (call_maxfev (minimization_call np d)) with 5000%Z in Hcap. lia.
Qed.

Lemma fit_minimization_call_witness :
  calls (fit scipy_no_convergence numpy_sample sample_data)
  = [mkCall (stochastic_resonance_model numpy_sample)
       (map noise_amplitude sample_data)
       (map max_phi sample_data) [0.02; 0.02; 0.0]%float 5000%Z] /\
  (fold_right Z.add 0%Z
     (map (fun _ => 5000%Z)
        (calls (fit scipy_no_convergence numpy_sample sample_data))) <= 5000)%Z.
Proof.
  apply (fit_minimization_call scipy_no_convergence numpy_sample sample_data
           (fun _ => 5000%Z)).
  intros call [<- | []]. cbv. discriminate.
Defined.

(** On the sample observations the two paths that use the location 5.0
    return the optimum values 7 and 3, on every platform whose
    pow(5.0, 2.0) is 25.0. *)
Lemma fallback_paths_on_sample (np : Numpy) :
  platform_pow2 np 5.0 = 25.0%float ->
  exists r1 r2,
    returns (fit (scipy_answers (0, 0, 7)%float) np sample_data) r1 /\
    returns (fit scipy_no_convergence np sample_data) r2 /\
    epsilon_opt r1 = 5.0%float /\ epsilon_opt r2 = 5.0%float /\
    phi_opt r1 = 7%float /\ phi_opt r2 = 3%float /\
    phi_opt r1 <> phi_opt r2.
Proof.
  intros Hpow.
  destruct (fit_try _ np sample_data _ _ _ _
              (scipy_answers_nonempty (0, 0, 7)%float np sample_data
                 sample_data_nonempty))
    as [r1 [Hr1 [_ [_ [_ [_ [Heps Hphi]]]]]]].
  change (epsilon_opt r1 = 5.0%float) in Heps. rewrite Heps in Hphi.
  assert (Hphi7 : phi_opt r1 = 7%float).
  { rewrite Hphi. unfold stochastic_resonance_model.
    change (power2 np Scalar 5.0) with (platform_pow2 np 5.0).
    rewrite Hpow. reflexivity. }
  exists r1, (spec_fallback 3).
  assert (Hr2 : returns (fit scipy_no_convergence np sample_data)
                  (spec_fallback 3)).
  { unfold returns.
    rewrite (fit_except scipy_no_convergence np sample_data
               (RuntimeError "Optimal parameters not found: Number of calls to function has reached maxfev = 5000.")
               eq_refl).
    reflexivity. }
  repeat split; try assumption; try reflexivity.
  rewrite Hphi7. cbn [phi_opt spec_fallback]. float_neq.
Qed.

(** C10: when the minimization returns parameters whose damping b is less
    than or equal to zero, the optimum value is the fitted model at the
    fallback location, f(5.0; a, b, c); the handler of the exception path
    returns the maximum observed y at the same location 5.0, and there are
    observations on which the two paths return different optimum values
    (7 and 3): on every platform whose pow(5.0, 2.0) is 25.0, and so on
    the sample platform. *)
Theorem fit_fallback_paths_differ :
  (forall (scipy_curve_fit : Call -> result (popt_t * pcov_t)) (np : Numpy)
          (d : list record) (a b c : float64) (pcov : pcov_t),
      minimization_outcome scipy_curve_fit np d = Ok ((a, b, c), pcov) ->
      (b <=? 0)%float = true ->
      exists r,
        returns (fit scipy_curve_fit np d) r /\
        epsilon_opt r = 5.0%float /\
        phi_opt r = stochastic_resonance_model np Scalar 5.0 a b c) /\
  (exists r1 r2,
      returns (fit (scipy_answers (0, 0, 7)%float) numpy_sample sample_data) r1 /\
      returns (fit scipy_no_convergence numpy_sample sample_data) r2 /\
      epsilon_opt r1 = 5.0%float /\ epsilon_opt r2 = 5.0%float /\
      phi_opt r1 = 7%float /\ phi_opt r2 = 3%float /\
      phi_opt r1 <> phi_opt r2) /\
  (forall np : Numpy,
      platform_pow2 np 5.0 = 25.0%float ->
      exists r1 r2,
        returns (fit (scipy_answers (0, 0, 7)%float) np sample_data) r1 /\
        returns (fit scipy_no_convergence np sample_data) r2 /\
        epsilon_opt r1 = 5.0%float /\ epsilon_opt r2 = 5.0%float /\
        phi_opt r1 = 7%float /\ phi_opt r2 = 3%float /\
        phi_opt r1 <> phi_opt r2).
Proof.
  split; [| split].
  - intros scipy_curve_fit np d a b c pcov Hm Hb.
    destruct (fit_try _ _ _ _ _ _ _ Hm) as [r [Hr [_ [_ [_ [_ [Heps Hphi]]]]]]].
    rewrite (gtb_false_of_leb _ _ Hb) in Heps. rewrite Heps in Hphi.
    exists r. repeat split; assumption.
  - exact (fallback_paths_on_sample numpy_sample eq_refl).
  - exact fallback_paths_on_sample.
Qed.

Lemma fit_fallback_paths_differ_witness :
  exists r,
    returns (fit (scipy_answers (0, 0, 7)%float) numpy_sample sample_data) r /\
    epsilon_opt r = 5.0%float /\
    phi_opt r = stochastic_resonance_model numpy_sample Scalar 5.0 0 0 7.
Proof.
  apply (proj1 fit_fallback_paths_differ (scipy_answers (0, 0, 7)%float)
           numpy_sample sample_data 0%float 0%float 7%float []).
  - reflexivity.
  - reflexivity.
Defined.

(** *** Identical responses *)

Lemma python_max_constant (ys : list float64) (y0 : float64) (log : list Call) :
  ys <> [] -> (forall y, In y ys -> y = y0) ->
  python_max ys log = (Ok y0, log).
Proof.
  intros Hne Hall.
  destruct (python_max_nonempty ys log Hne) as [m [Hmax [Hin _]]].
  rewrite Hmax, (Hall m Hin). reflexivity.
Qed.

Lemma fit_except_constant
    (scipy_curve_fit : Call -> result (popt_t * pcov_t)) (np : Numpy)
    (d : list record) (y0 : float64) (e : exception) :
  d <> [] -> (forall r, In r d -> max_phi r = y0) ->
  minimization_outcome scipy_curve_fit np d = Raise e ->
  returns (fit scipy_curve_fit np d) (spec_fallback y0).
Proof.
  intros Hne Hall Hm. unfold returns. rewrite (fit_except _ _ _ _ Hm).
  unfold bind. rewrite (python_max_constant _ y0); [reflexivity | |].
  - destruct d; simpl; congruence.
  - intros y Hy. apply in_map_iff in Hy. destruct Hy as [r [<- Hr]].
    exact (Hall r Hr).
Qed.

Lemma flat_data_constant : forall r, In r flat_data -> max_phi r = 1%float.
Proof. intros r [<- | [<- | [<- | []]]]; reflexivity. Qed.

(** C7, as stated, fails.  On a non-empty input whose responses are all
    identical no exception reaches the caller, whatever the fitting
    library and the platform do: an exception of the library is caught
    and the fit returns the documented fallback, and the division by
    SS_tot raises nothing.  On the responses 1, 1, 1 with the fitted
    curve y = 1 the fit returns R^2 = 0/0 = nan.  And identical responses
    need not give SS_tot = 0: the float64 mean of 0.1, 0.1, 0.1 is
    0.10000000000000002, SS_tot is positive, and with the fitted curve
    y = 0.1 the fit returns R^2 = 1. *)
Lemma identical_responses_never_raise :
  (forall (scipy_curve_fit : Call -> result (popt_t * pcov_t)) (np : Numpy)
          (d : list record) (y0 : float64),
      d <> [] -> (forall r, In r d -> max_phi r = y0) ->
      (forall e, ~ raises (fit scipy_curve_fit np d) e) /\
      (forall e, minimization_outcome scipy_curve_fit np d = Raise e ->
                 returns (fit scipy_curve_fit np d)
                   (mkFitResult 0.02 0.02 0.0 0 5.0 y0))) /\
  (forall np : Numpy,
      ss_tot np flat_data = 0%float /\
      exists r,
        returns (fit (scipy_answers (0, 0, 1)%float) np flat_data) r /\
        r_squared r = nan) /\
  (forall np : Numpy,
      mean_response np tenth_data = 0.10000000000000002%float /\
      (0 <? ss_tot np tenth_data)%float = true /\
      exists r,
        returns (fit (scipy_answers (0, 0, 0.1)%float) np tenth_data) r /\
        r_squared r = 1%float).
Proof.
  split; [| split].
  - intros scipy_curve_fit np d y0 Hne Hall. split.
    + destruct (fit_nonempty_returns scipy_curve_fit np d Hne) as [r Hr].
      intros e. exact (returns_not_raises _ _ e Hr).
    + intros e Hm. exact (fit_except_constant _ _ _ _ _ Hne Hall Hm).
  - intros np. split; [numpy_cases np; reflexivity |].
    destruct (fit_try_r_squared _ np flat_data _ _ _ _
                (scipy_answers_nonempty (0, 0, 1)%float np flat_data
                   ltac:(discriminate)))
      as [r [Hr [_ [_ [_ Hr2]]]]].
    exists r. split; [exact Hr |]. rewrite Hr2.
    numpy_cases np; reflexivity.
  - intros np. split; [numpy_cases np; reflexivity |].
    split; [numpy_cases np; reflexivity |].
    destruct (fit_try_r_squared _ np tenth_data _ _ _ _
                (scipy_answers_nonempty (0, 0, 0.1)%float np tenth_data
                   ltac:(discriminate)))
      as [r [Hr [_ [_ [_ Hr2]]]]].
    exists r. split; [exact Hr |]. rewrite Hr2.
    numpy_cases np; reflexivity.
Qed.

(** C7, amended: on a non-empty input whose responses are all identical
    nothing special-cases the R^2 computation, yet no exception reaches
    the caller.  If the minimization raises, the guard catches it and the
    fit returns the documented fallback.  If it returns, the fit returns
    the fitted parameters with R^2 = 1 - SS_res/SS_tot in float64; when
    SS_tot is zero the division raises nothing, R^2 is nan or an
    infinity, and the result is not the documented fallback. *)
Theorem fit_identical_responses
    (scipy_curve_fit : Call -> result (popt_t * pcov_t)) (np : Numpy)
    (d : list record) (y0 : float64) :
  d <> [] ->
  (forall r, In r d -> max_phi r = y0) ->
  (forall e, ~ raises (fit scipy_curve_fit np d) e) /\
  (forall e,
      minimization_outcome scipy_curve_fit np d = Raise e ->
      returns (fit scipy_curve_fit np d)
        (mkFitResult 0.02 0.02 0.0 0 5.0 y0)) /\
  (forall (a b c : float64) (pcov : pcov_t),
      minimization_outcome scipy_curve_fit np d = Ok ((a, b, c), pcov) ->
      exists r,
        returns (fit scipy_curve_fit np d) r /\
        fit_a r = a /\ fit_b r = b /\ fit_c r = c /\
        r_squared r = (1 - ss_res np d a b c / ss_tot np d)%float /\
        ((ss_tot np d =? 0)%float = true ->
         (r_squared r = nan \/ r_squared r = neg_infinity \/
          r_squared r = infinity) /\
         r <> mkFitResult 0.02 0.02 0.0 0 5.0 y0)).
Proof.
  intros Hne Hall. split; [| split].
  - destruct (fit_nonempty_returns scipy_curve_fit np d Hne) as [r Hr].
    intros e. exact (returns_not_raises _ _ e Hr).
  - intros e Hm. exact (fit_except_constant _ _ _ _ _ Hne Hall Hm).
  - intros a b c pcov Hm.
    destruct (fit_try_r_squared _ _ _ _ _ _ _ Hm) as [r [Hr [Ha [Hb [Hc Hr2]]]]].
    exists r. repeat (split; [assumption |]).
    intros Hzero.
    pose proof (one_minus_div_zero (ss_res np d a b c) _ Hzero) as Hcases.
    rewrite <- Hr2 in Hcases. split; [exact Hcases |].
    intros Heq. rewrite Heq in Hcases. cbn [r_squared] in Hcases.
    destruct Hcases as [H | [H | H]]; revert H; float_neq.
Qed.

Lemma fit_identical_responses_witness :
  (forall e, ~ raises (fit (scipy_answers (0, 0, 1)%float) numpy_sample
                         flat_data) e) /\
  (forall e,
      minimization_outcome (scipy_answers (0, 0, 1)%float) numpy_sample flat_data
      = Raise e ->
      returns (fit (scipy_answers (0, 0, 1)%float) numpy_sample flat_data)
        (mkFitResult 0.02 0.02 0.0 0 5.0 1)) /\
  (forall (a b c : float64) (pcov : pcov_t),
      minimization_outcome (scipy_answers (0, 0, 1)%float) numpy_sample flat_data
      = Ok ((a, b, c), pcov) ->
      exists r,
        returns (fit (scipy_answers (0, 0, 1)%float) numpy_sample flat_data) r /\
        fit_a r = a /\ fit_b r = b /\ fit_c r = c /\
        r_squared r
        = (1 - ss_res numpy_sample flat_data a b c
               / ss_tot numpy_sample flat_data)%float /\
        ((ss_tot numpy_sample flat_data =? 0)%float = true ->
         (r_squared r = nan \/ r_squared r = neg_infinity \/
          r_squared r = infinity) /\
         r <> mkFitResult 0.02 0.02 0.0 0 5.0 1)).
Proof.
  apply (fit_identical_responses (scipy_answers (0, 0, 1)%float) numpy_sample
           flat_data 1%float).
  - discriminate.
  - exact flat_data_constant.
Defined.

(** *** Further properties of the fit *)

(** X2: R^2 = 0 is not proper to the fallback: when the minimization
    returns the flat curve at the mean of the responses (a = 0, b = 0,
    c = 2 on the responses 0, 3, 3), the [try] block also returns
    R^2 = 0, with parameters that are not those of the fallback. *)
Theorem fit_r_squared_of_mean_curve (np : Numpy) :
  mean_response np mean_data = 2%float /\
  exists r,
    returns (fit (scipy_answers (0, 0, 2)%float) np mean_data) r /\
    fit_a r = 0%float /\ fit_b r = 0%float /\ fit_c r = 2%float /\
    r_squared r = 0%float /\
    forall y_max, r <> mkFitResult 0.02 0.02 0.0 0 5.0 y_max.
Proof.
  split; [numpy_cases np; reflexivity |].
  destruct (fit_try_r_squared _ np mean_data _ _ _ _
              (scipy_answers_nonempty (0, 0, 2)%float np mean_data
                 ltac:(discriminate)))
    as [r [Hr [Ha [Hb [Hc Hr2]]]]].
  exists r. repeat (split; [assumption |]). split.
  - rewrite Hr2. numpy_cases np; reflexivity.
  - intros y_max Heq. rewrite Heq in Ha. cbn [fit_a] in Ha.
    revert Ha. float_neq.
Qed.

(** X4: in every result the fit returns, from the [try] block or from the
    handler, the optimum location is determined by the damping b of the
    result: np.sqrt(1/(2.b)) when b > 0 and 5.0 otherwise.  In particular
    the 5.0 of the handler is the float64 sqrt(1/(2 . 0.02)) of its own
    parameters. *)
Theorem fit_location_from_damping
    (scipy_curve_fit : Call -> result (popt_t * pcov_t)) (np : Numpy)
    (d : list record) (r : FitResult) :
  returns (fit scipy_curve_fit np d) r ->
  epsilon_opt r
  = if (fit_b r >? 0)%float then np_sqrt (1 / (2 * fit_b r))%float
    else 5.0%float.
Proof.
  intros Hr.
  destruct (minimization_outcome scipy_curve_fit np d)
    as [[[[a b] c] pcov] | e] eqn:Hm.
  - destruct (fit_try _ _ _ _ _ _ _ Hm) as [r' [Hr' [_ [Hb [_ [_ [Heps _]]]]]]].
    assert (r = r') by (unfold returns in *; congruence). subst r'.
    rewrite Hb. exact Heps.
  - unfold returns in Hr. rewrite (fit_except _ _ _ _ Hm) in Hr.
    unfold bind in Hr.
    destruct (map max_phi d) as [| y rest]; [discriminate |].
    cbn in Hr. injection Hr as <-. reflexivity.
Qed.

Lemma fit_location_from_damping_witness :
  epsilon_opt (spec_fallback 3)
  = if (fit_b (spec_fallback 3) >? 0)%float
    then np_sqrt (1 / (2 * fit_b (spec_fallback 3)))%float
    else 5.0%float.
Proof.
  apply (fit_location_from_damping scipy_no_convergence numpy_sample sample_data
           (spec_fallback 3)).
  unfold returns.
  rewrite (fit_except scipy_no_convergence numpy_sample sample_data _ eq_refl).
  reflexivity.
Defined.

(** X5: when the minimization raises, the optimum value of the fallback
    is [nan] exactly when the first observed response is [nan]; a [nan]
    at any later position is ignored by the builtin [max]. *)
Theorem fit_fallback_nan
    (scipy_curve_fit : Call -> result (popt_t * pcov_t)) (np : Numpy)
    (r0 : record) (rest : list record) (e : exception) :
  minimization_outcome scipy_curve_fit np (r0 :: rest) = Raise e ->
  exists y_max,
    returns (fit scipy_curve_fit np (r0 :: rest))
      (mkFitResult 0.02 0.02 0.0 0 5.0 y_max) /\
    (y_max = nan <-> max_phi r0 = nan).
Proof.
  intros Hm.
  exists (max_loop (max_phi r0) (map max_phi rest)). split.
  - unfold returns. rewrite (fit_except _ _ _ _ Hm). reflexivity.
  - apply max_loop_nan_iff.
Qed.

Lemma fit_fallback_nan_witness :
  exists y_max,
    returns (fit scipy_no_convergence numpy_sample
               [mkRecord "XLarge" 0 1; mkRecord "XLarge" 5 nan])
      (mkFitResult 0.02 0.02 0.0 0 5.0 y_max) /\
    (y_max = nan <-> 1%float = nan).
Proof.
  apply (fit_fallback_nan scipy_no_convergence numpy_sample
           (mkRecord "XLarge" 0 1)
           [mkRecord "XLarge" 5 nan]
           (RuntimeError "Optimal parameters not found: Number of calls to function has reached maxfev = 5000.")).
  reflexivity.
Defined.

(** *** The order of the observations *)

(** The handler on a non-empty observation set: the fallback with an
    observed y that no observed y is greater than. *)
Lemma fit_except_max
    (scipy_curve_fit : Call -> result (popt_t * pcov_t)) (np : Numpy)
    (d : list record) (e : exception) :
  d <> [] ->
  minimization_outcome scipy_curve_fit np d = Raise e ->
  exists m,
    outcome (fit scipy_curve_fit np d) = Ok (spec_fallback m) /\
    In m (map max_phi d) /\
    forall y, In y (map max_phi d) -> (y >? m)%float = false.
Proof.
  intros Hne Hm.
  assert (Hys : map max_phi d <> []) by (destruct d; simpl; congruence).
  destruct (python_max_nonempty _ [minimization_call np d] Hys)
    as [m [Hmax [Hin Hup]]].
  exists m. split; [| split; [exact Hin | exact Hup]].
  rewrite (fit_except _ _ _ _ Hm). unfold bind. rewrite Hmax. reflexivity.
Qed.

(** X6: when the minimization raises, the fallback does not depend on
    the order of the observations, as long as no response is nan or the
    negative zero: on two orders of the same observations the fit has the
    same outcome (the same six values, or the same exception on the empty
    set). *)
Theorem fit_fallback_order_independent
    (scipy_curve_fit : Call -> result (popt_t * pcov_t)) (np : Numpy)
    (d1 d2 : list record) (e1 e2 : exception) :
  Permutation d1 d2 ->
  (forall r, In r d1 -> max_phi r <> nan /\ max_phi r <> neg_zero) ->
  minimization_outcome scipy_curve_fit np d1 = Raise e1 ->
  minimization_outcome scipy_curve_fit np d2 = Raise e2 ->
  outcome (fit scipy_curve_fit np d1) = outcome (fit scipy_curve_fit np d2).
Proof.
  intros Hperm Hnum H1 H2.
  destruct d1 as [| r1 d1].
  - apply Permutation_nil in Hperm. subst d2. reflexivity.
  - assert (Hne2 : d2 <> []).
    { intros Heq. subst d2.
      apply Permutation_sym, Permutation_nil in Hperm. discriminate. }
    assert (Hne1 : r1 :: d1 <> []) by discriminate.
    destruct (fit_except_max _ _ _ _ Hne1 H1) as [m1 [Ho1 [Hin1 Hup1]]].
    destruct (fit_except_max _ _ _ _ Hne2 H2) as [m2 [Ho2 [Hin2 Hup2]]].
    rewrite Ho1, Ho2. do 2 f_equal.
    pose proof (Permutation_map max_phi Hperm) as Hp.
    assert (Hys : forall y, In y (map max_phi (r1 :: d1)) ->
                            y <> nan /\ y <> neg_zero).
    { intros y Hy. apply in_map_iff in Hy. destruct Hy as [r [<- Hr]].
      exact (Hnum r Hr). }
    assert (Hin2' : In m2 (map max_phi (r1 :: d1)))
      by exact (Permutation_in _ (Permutation_sym Hp) Hin2).
    destruct (Hys m1 Hin1) as [Hn1 Hz1].
    destruct (Hys m2 Hin2') as [Hn2 Hz2].
    apply gtb_antisym; auto.
    apply Hup2. exact (Permutation_in _ Hp Hin1).
Qed.

Lemma fit_fallback_order_independent_witness :
  outcome (fit scipy_no_convergence numpy_sample
             [mkRecord "XLarge" 0 0; mkRecord "XLarge" 5 3; mkRecord "XLarge" 10 1])
  = outcome (fit scipy_no_convergence numpy_sample
               [mkRecord "XLarge" 5 3; mkRecord "XLarge" 0 0; mkRecord "XLarge" 10 1]).
Proof.
  apply (fit_fallback_order_independent scipy_no_convergence numpy_sample
           [mkRecord "XLarge" 0 0; mkRecord "XLarge" 5 3; mkRecord "XLarge" 10 1]
           [mkRecord "XLarge" 5 3; mkRecord "XLarge" 0 0; mkRecord "XLarge" 10 1]
           (RuntimeError "Optimal parameters not found: Number of calls to function has reached maxfev = 5000.")
           (RuntimeError "Optimal parameters not found: Number of calls to function has reached maxfev = 5000.")).
  - apply perm_swap.
  - intros r [<- | [<- | [<- | []]]]; split; float_neq.
  - reflexivity.
  - reflexivity.
Defined.

(** X7: the result of the [try] block depends on the order of the
    observations: with the same parameters (0, 0, 7) the fit returns
    R^2 = -20.642857142857146 on the sample observations and
    R^2 = -20.642857142857142 on the same observations in reverse order,
    because the float64 sums of SS_tot round differently. *)
Theorem fit_result_order_dependent (np : Numpy) :
  Permutation sample_data (rev sample_data) /\
  exists r1 r2,
    returns (fit (scipy_answers (0, 0, 7)%float) np sample_data) r1 /\
    returns (fit (scipy_answers (0, 0, 7)%float) np (rev sample_data)) r2 /\
    r_squared r1 = (-20.642857142857146)%float /\
    r_squared r2 = (-20.642857142857142)%float /\
    r_squared r1 <> r_squared r2.
Proof.
  split; [apply Permutation_rev |].
  destruct (fit_try_r_squared _ np sample_data _ _ _ _
              (scipy_answers_nonempty (0, 0, 7)%float np sample_data
                 sample_data_nonempty))
    as [r1 [Hr1 [_ [_ [_ Hq1]]]]].
  destruct (fit_try_r_squared _ np (rev sample_data) _ _ _ _
              (scipy_answers_nonempty (0, 0, 7)%float np (rev sample_data)
                 ltac:(discriminate)))
    as [r2 [Hr2 [_ [_ [_ Hq2]]]]].
  assert (H1 : r_squared r1 = (-20.642857142857146)%float).
  { rewrite Hq1. numpy_cases np; reflexivity. }
  assert (H2 : r_squared r2 = (-20.642857142857142)%float).
  { rewrite Hq2. numpy_cases np; reflexivity. }
  exists r1, r2. repeat (split; [assumption |]).
  rewrite H1, H2. float_neq.
Qed.

(** *** Comprehensions over the loaded records *)

Lemma subscript_Done {A} (field : option A) (key : string) (v : A) :
  subscript field key = Done v <-> field = Some v.
Proof.
  destruct field; simpl; split; intros H; congruence.
Qed.

Lemma subscript_Failed {A} (field : option A) (key : string) (e : lookup_error) :
  subscript field key = Failed e <-> field = None /\ e = KeyError key.
Proof.
  destruct field; simpl; split.
  - discriminate.
  - intros [H _]; discriminate.
  - intros H. split; congruence.
  - intros [_ ->]. reflexivity.
Qed.

(** What a comprehension that returns has done: every condition was
    evaluated without exception, and the output lists the elements of
    the items on which the condition is true, in order. *)
Lemma comprehension_success {A B} (elt : A -> pyres B) (cond : A -> pyres bool)
    (l : list A) :
  forall out,
    comprehension elt cond l = Done out ->
    Forall2 (fun r v => elt r = Done v) (filter (holds cond) l) out /\
    (forall r, In r l -> exists b, cond r = Done b).
Proof.
  induction l as [| r l IH]; intros out H.
  - injection H as <-. split; [constructor | intros r []].
  - cbn [comprehension] in H. cbn [filter]. unfold holds at 1.
    destruct (cond r) as [[|] | e] eqn:Hc; cbn [and_then] in H;
      try discriminate.
    + destruct (elt r) as [v | e] eqn:He; cbn [and_then] in H;
        try discriminate.
      destruct (comprehension elt cond l) as [tail | e] eqn:Ht;
        cbn [and_then] in H; try discriminate.
      injection H as <-. destruct (IH tail eq_refl) as [IH1 IH2].
      split; [constructor; assumption |].
      intros r' [<- | Hr']; [exists true; exact Hc | exact (IH2 r' Hr')].
    + destruct (IH out H) as [IH1 IH2]. split; [exact IH1 |].
      intros r' [<- | Hr']; [exists false; exact Hc | exact (IH2 r' Hr')].
Qed.

(** A selection [[r for r in l if cond(r)]] whose conditions raise
    nothing is the filter of the list. *)
Lemma comprehension_select {A} (cond : A -> pyres bool) (l : list A) :
  (forall r, In r l -> exists b, cond r = Done b) ->
  comprehension Done cond l = Done (filter (holds cond) l).
Proof.
  induction l as [| r l IH]; intros H; [reflexivity |].
  cbn [comprehension filter]. unfold holds at 1.
  destruct (H r (or_introl eq_refl)) as [b Hb]. rewrite Hb.
  rewrite IH by (intros r' Hr'; apply H; right; exact Hr').
  destruct b; reflexivity.
Qed.

Lemma comprehension_select_success {A} (cond : A -> pyres bool) (l out : list A) :
  comprehension Done cond l = Done out -> out = filter (holds cond) l.
Proof.
  intros H. destruct (comprehension_success _ _ _ _ H) as [_ Hc].
  rewrite (comprehension_select cond l Hc) in H. congruence.
Qed.

(** A selection fails with the exception of the first condition that
    raises. *)
Lemma comprehension_select_failed {A} (cond : A -> pyres bool) (l : list A)
    (e : lookup_error) :
  (exists r, In r l /\ cond r = Failed e) ->
  (forall r e', In r l -> cond r = Failed e' -> e' = e) ->
  comprehension Done cond l = Failed e.
Proof.
  induction l as [| r l IH]; intros [r0 [Hin Hr0]] Hsame.
  - destruct Hin.
  - cbn [comprehension].
    destruct (cond r) as [b | e'] eqn:Hc.
    + assert (Hl : comprehension Done cond l = Failed e).
      { apply IH.
        - destruct Hin as [<- | Hin]; [congruence |]. exists r0. tauto.
        - intros r' e' Hr'. apply Hsame. right; exact Hr'. }
      cbn [and_then]. rewrite Hl. destruct b; reflexivity.
    + cbn [and_then]. f_equal. exact (Hsame r e' (or_introl eq_refl) Hc).
Qed.

(** A comprehension without [if] that returns has one output per item. *)
Lemma comprehension_all_success {A B} (elt : A -> pyres B) (l : list A)
    (out : list B) :
  comprehension elt unconditional l = Done out ->
  Forall2 (fun r v => elt r = Done v) l out.
Proof.
  intros H. destruct (comprehension_success _ _ _ _ H) as [HF _].
  replace (filter (holds unconditional) l) with l in HF; [exact HF |].
  clear. induction l as [| r l IH]; [reflexivity |].
  cbn. f_equal. exact IH.
Qed.

Lemma comprehension_all {A B} (elt : A -> pyres B) (f : A -> B) (l : list A) :
  (forall r, In r l -> elt r = Done (f r)) ->
  comprehension elt unconditional l = Done (map f l).
Proof.
  induction l as [| r l IH]; intros H; [reflexivity |].
  cbn [comprehension unconditional and_then map].
  rewrite (H r (or_introl eq_refl)). cbn [and_then].
  rewrite IH by (intros r' Hr'; apply H; right; exact Hr'). reflexivity.
Qed.

(** An item on which the condition is false leaves no trace. *)
Lemma comprehension_skip {A B} (elt : A -> pyres B) (cond : A -> pyres bool)
    (pre post : list A) (r : A) :
  cond r = Done false ->
  comprehension elt cond (pre ++ r :: post) = comprehension elt cond (pre ++ post).
Proof.
  intros Hr. induction pre as [| x pre IH].
  - cbn [app comprehension]. rewrite Hr. reflexivity.
  - cbn [app comprehension]. rewrite IH. reflexivity.
Qed.

Lemma Forall2_length_eq {A B} (P : A -> B -> Prop) (l : list A) (l' : list B) :
  Forall2 P l l' -> List.length l = List.length l'.
Proof. induction 1; simpl; congruence. Qed.

Lemma Forall2_In_l {A B} (P : A -> B -> Prop) (l : list A) (l' : list B) (x : A) :
  Forall2 P l l' -> In x l -> exists y, In y l' /\ P x y.
Proof.
  induction 1 as [| a b l l' Hab _ IH]; intros Hin; [destruct Hin |].
  destruct Hin as [<- | Hin].
  - exists b. split; [left; reflexivity | exact Hab].
  - destruct (IH Hin) as [y [Hy Hxy]]. exists y. split; [right |]; assumption.
Qed.

(** The conditions of the figures, in terms of the fields. *)
Lemma has_size_Done (size : string) (r : json_record) (b : bool) :
  has_size size r = Done b <->
  exists s, js_system_size r = Some s /\ b = String.eqb s size.
Proof.
  unfold has_size, get_system_size.
  destruct (js_system_size r) as [s |]; simpl; split.
  - intros H. exists s. split; congruence.
  - intros [s' [H ->]]. congruence.
  - discriminate.
  - intros [s' [H _]]. discriminate.
Qed.

Lemma holds_has_size (size : string) (r : json_record) :
  holds (has_size size) r = true <-> js_system_size r = Some size.
Proof.
  unfold holds, has_size, get_system_size.
  destruct (js_system_size r) as [s |]; simpl.
  - destruct (String.eqb_spec s size) as [-> | Hne]; split; intros H;
      congruence.
  - split; discriminate.
Qed.

Lemma holds_xlarge_at (level : string) (r : json_record) :
  holds (xlarge_at level) r = true <-> is_xlarge_at level r.
Proof.
  unfold holds, xlarge_at, is_xlarge_at, get_system_size, get_noise_level.
  destruct (js_system_size r) as [s |]; simpl.
  - destruct (String.eqb_spec s "XLarge") as [-> | Hne].
    + destruct (js_noise_level r) as [l |]; simpl.
      * destruct (String.eqb_spec l level) as [-> | Hne]; split;
          intros H; try tauto; try discriminate.
        destruct H as [_ H]. congruence.
      * split; [discriminate | intros [_ H]; discriminate].
    + simpl. split; [discriminate | intros [H _]; congruence].
  - split; [discriminate | intros [H _]; discriminate].
Qed.

(** *** Figure 2 on the loaded records *)

Lemma typed_fields (r : json_record) (rec : record) :
  typed r = Some rec ->
  js_system_size r = Some (system_size rec) /\
  js_noise_amplitude r = Some (noise_amplitude rec) /\
  js_max_phi r = Some (max_phi rec).
Proof.
  unfold typed.
  destruct (js_system_size r), (js_noise_amplitude r), (js_max_phi r);
    try discriminate.
  intros H. injection H as <-. repeat split.
Qed.

Lemma typed_filter (size : string) (results : list json_record) :
  forall recs,
    map typed results = map Some recs ->
    map typed (filter (holds (has_size size)) results)
    = map Some (filter (fun r => String.eqb (system_size r) size) recs).
Proof.
  induction results as [| r results IH]; intros [| rec recs] H;
    try discriminate; [reflexivity |].
  cbn [map] in H. injection H as Hr Hrest.
  destruct (typed_fields _ _ Hr) as [Hs _].
  assert (Hh : holds (has_size size) r = String.eqb (system_size rec) size).
  { unfold holds, has_size, get_system_size. rewrite Hs. simpl.
    destruct (String.eqb (system_size rec) size); reflexivity. }
  cbn [filter]. rewrite Hh.
  destruct (String.eqb (system_size rec) size); cbn [map];
    rewrite (IH recs Hrest); congruence.
Qed.

Lemma typed_conditions (size : string) (results : list json_record)
    (recs : list record) :
  map typed results = map Some recs ->
  forall r, In r results -> exists b, has_size size r = Done b.
Proof.
  intros H r Hr.
  assert (Ht : In (typed r) (map Some recs))
    by (rewrite <- H; apply in_map; exact Hr).
  apply in_map_iff in Ht. destruct Ht as [rec [Ht _]].
  destruct (typed_fields _ _ (eq_sym Ht)) as [Hs _].
  eexists. apply has_size_Done. exists (system_size rec). split; [exact Hs |].
  reflexivity.
Qed.

Lemma typed_columns (l : list json_record) :
  forall recs,
    map typed l = map Some recs ->
    comprehension get_noise_amplitude unconditional l
    = Done (map noise_amplitude recs) /\
    comprehension get_max_phi unconditional l = Done (map max_phi recs).
Proof.
  induction l as [| r l IH]; intros [| rec recs] H; try discriminate;
    [split; reflexivity |].
  cbn [map] in H. injection H as Hr Hrest.
  destruct (typed_fields _ _ Hr) as [_ [Hx Hy]].
  destruct (IH recs Hrest) as [IHx IHy].
  cbn [comprehension unconditional and_then map].
  unfold get_noise_amplitude, get_max_phi. rewrite Hx, Hy.
  cbn [subscript and_then].
  unfold get_noise_amplitude in IHx. unfold get_max_phi in IHy.
  rewrite IHx, IHy. split; reflexivity.
Qed.

Lemma records_of_columns (l : list record) :
  (forall r, In r l -> system_size r = "XLarge"%string) ->
  map (fun xy => mkRecord "XLarge" (fst xy) (snd xy))
    (combine (map noise_amplitude l) (map max_phi l)) = l.
Proof.
  induction l as [| r l IH]; intros H; [reflexivity |].
  cbn [map combine fst snd].
  rewrite IH by (intros r' Hr'; apply H; right; exact Hr').
  f_equal. rewrite <- (H r (or_introl eq_refl)). destruct r; reflexivity.
Qed.

Lemma fig2_observations_typed (results : list json_record) (recs : list record) :
  map typed results = map Some recs ->
  fig2_observations results
  = Done (filter (fun r => String.eqb (system_size r) "XLarge") recs).
Proof.
  intros H. unfold fig2_observations.
  rewrite (comprehension_select _ _ (typed_conditions "XLarge" _ _ H)).
  cbn [and_then].
  destruct (typed_columns _ _ (typed_filter "XLarge" _ _ H)) as [Hx Hy].
  rewrite Hx. cbn [and_then]. rewrite Hy. cbn [and_then]. f_equal.
  apply records_of_columns.
  intros r Hr. apply filter_In in Hr. destruct Hr as [_ Hr].
  apply String.eqb_eq. exact Hr.
Qed.

(** X8: on loaded records that all carry 'system_size',
    'noise_amplitude' and 'max_phi', lines 113-134 raise no KeyError and
    are the fit of the typed records: the same library call, the same
    result. *)
Theorem fig2_json_typed
    (scipy_curve_fit : Call -> result (popt_t * pcov_t)) (np : Numpy)
    (results : list json_record) (recs : list record) :
  map typed results = map Some recs ->
  fig2_stochastic_resonance_json scipy_curve_fit np results
  = Done (fig2_stochastic_resonance scipy_curve_fit np recs).
Proof.
  intros H. unfold fig2_stochastic_resonance_json, fig2_stochastic_resonance.
  rewrite (fig2_observations_typed _ _ H). reflexivity.
Qed.

Lemma fig2_json_typed_witness :
  fig2_stochastic_resonance_json scipy_no_convergence numpy_sample json_complete_sample
  = Done (fig2_stochastic_resonance scipy_no_convergence numpy_sample typed_sample).
Proof.
  apply (fig2_json_typed scipy_no_convergence numpy_sample json_complete_sample typed_sample).
  reflexivity.
Defined.

(** A comprehension of the values of 'noise_amplitude' fails with the
    KeyError of that key only. *)
Lemma noise_amplitude_failure (l : list json_record) (e : lookup_error) :
  comprehension get_noise_amplitude unconditional l = Failed e ->
  e = KeyError "noise_amplitude".
Proof.
  induction l as [| x l IH]; intros Hn; [discriminate |].
  cbn [comprehension unconditional and_then] in Hn.
  unfold get_noise_amplitude at 1 in Hn.
  destruct (js_noise_amplitude x); cbn [subscript and_then] in Hn.
  - destruct (comprehension get_noise_amplitude unconditional l) eqn:Hl;
      cbn [and_then] in Hn; [discriminate |].
    injection Hn as <-. apply IH. reflexivity.
  - congruence.
Qed.

(** X9: the subscripts of lines 113-115 stand before the guard: if a
    loaded record lacks 'system_size', whatever its place and its other
    keys, figure 2 raises KeyError('system_size'); no fit is computed and
    no fallback is produced. *)
Theorem fig2_json_missing_system_size
    (scipy_curve_fit : Call -> result (popt_t * pcov_t)) (np : Numpy)
    (results : list json_record) (r : json_record) :
  In r results ->
  js_system_size r = None ->
  fig2_stochastic_resonance_json scipy_curve_fit np results
  = Failed (KeyError "system_size").
Proof.
  intros Hin Hnone. unfold fig2_stochastic_resonance_json, fig2_observations.
  rewrite (comprehension_select_failed (has_size "XLarge") results
             (KeyError "system_size")); [reflexivity | |].
  - exists r. split; [exact Hin |].
    unfold has_size, get_system_size. rewrite Hnone. reflexivity.
  - intros r' e' _ He'. unfold has_size, get_system_size in He'.
    destruct (js_system_size r'); simpl in He'; congruence.
Qed.

Lemma fig2_json_missing_system_size_witness :
  fig2_stochastic_resonance_json scipy_no_convergence numpy_sample
    (json_sample ++ [mkJson None None None None None])
  = Failed (KeyError "system_size").
Proof.
  apply (fig2_json_missing_system_size scipy_no_convergence numpy_sample
           (json_sample ++ [mkJson None None None None None])
           (mkJson None None None None None)).
  - apply in_or_app. right. left. reflexivity.
  - reflexivity.
Defined.

(** X10: if every loaded record carries 'system_size' and an XLarge
    record lacks 'noise_amplitude', figure 2 raises
    KeyError('noise_amplitude') before the guard. *)
Theorem fig2_json_missing_noise_amplitude
    (scipy_curve_fit : Call -> result (popt_t * pcov_t)) (np : Numpy)
    (results : list json_record) (r : json_record) :
  (forall r', In r' results -> js_system_size r' <> None) ->
  In r results ->
  js_system_size r = Some "XLarge"%string ->
  js_noise_amplitude r = None ->
  fig2_stochastic_resonance_json scipy_curve_fit np results
  = Failed (KeyError "noise_amplitude").
Proof.
  intros Hall Hin Hxl Hnone.
  unfold fig2_stochastic_resonance_json, fig2_observations.
  rewrite comprehension_select.
  2:{ intros r' Hr'. specialize (Hall r' Hr').
      unfold has_size, get_system_size.
      destruct (js_system_size r'); [| congruence]. eexists. reflexivity. }
  cbn [and_then].
  destruct (comprehension get_noise_amplitude unconditional
              (filter (holds (has_size "XLarge")) results))
    as [noise | e] eqn:Hn.
  - exfalso. apply comprehension_all_success in Hn.
    assert (Hr : In r (filter (holds (has_size "XLarge")) results)).
    { apply filter_In. split; [exact Hin |]. apply holds_has_size. exact Hxl. }
    destruct (Forall2_In_l _ _ _ _ Hn Hr) as [v [_ Hv]].
    unfold get_noise_amplitude in Hv. rewrite Hnone in Hv. discriminate.
  - cbn [and_then]. f_equal. exact (noise_amplitude_failure _ _ Hn).
Qed.

Lemma fig2_json_missing_noise_amplitude_witness :
  fig2_stochastic_resonance_json scipy_no_convergence numpy_sample
    [mkJson (Some "Small"%string) None None None None;
     mkJson (Some "XLarge"%string) None None (Some 3%float) None]
  = Failed (KeyError "noise_amplitude").
Proof.
  apply (fig2_json_missing_noise_amplitude scipy_no_convergence numpy_sample
           [mkJson (Some "Small"%string) None None None None;
            mkJson (Some "XLarge"%string) None None (Some 3%float) None]
           (mkJson (Some "XLarge"%string) None None (Some 3%float) None)).
  - intros r' [<- | [<- | []]]; discriminate.
  - right. left. reflexivity.
  - reflexivity.
  - reflexivity.
Defined.

(** *** Figure 4 *)

Lemma filter_nil_iff {A} (f : A -> bool) (l : list A) :
  filter f l = [] <-> forall x, In x l -> f x = false.
Proof.
  induction l as [| x l IH]; simpl.
  - split; [intros _ y [] | reflexivity].
  - destruct (f x) eqn:Hx; split.
    + discriminate.
    + intros H. specialize (H x (or_introl eq_refl)). congruence.
    + intros H y [<- | Hy]; [exact Hx | apply IH; assumption].
    + intros H. apply IH. intros y Hy. apply H. right; exact Hy.
Qed.

Lemma filter_head_split {A} (f : A -> bool) (l : list A) (x : A) (rest : list A) :
  filter f l = x :: rest ->
  exists pre post,
    l = pre ++ x :: post /\ f x = true /\ forall y, In y pre -> f y = false.
Proof.
  induction l as [| y l IH]; simpl; [discriminate |].
  destruct (f y) eqn:Hy.
  - intros H. injection H as -> _.
    exists [], l. split; [reflexivity |]. split; [exact Hy | intros z []].
  - intros H. destruct (IH H) as [pre [post [-> [Hx Hpre]]]].
    exists (y :: pre), post. split; [reflexivity |]. split; [exact Hx |].
    intros z [<- | Hz]; [exact Hy | exact (Hpre z Hz)].
Qed.

Lemma not_holds_xlarge_at (level : string) (l : list json_record) :
  (forall r, In r l -> holds (xlarge_at level) r = false) <->
  ~ (exists r, In r l /\ is_xlarge_at level r).
Proof.
  split.
  - intros H [r [Hr Hx]]. apply holds_xlarge_at in Hx.
    rewrite (H r Hr) in Hx. discriminate.
  - intros H r Hr. destruct (holds (xlarge_at level) r) eqn:Hh; [| reflexivity].
    exfalso. apply H. exists r. split; [exact Hr |].
    apply holds_xlarge_at. exact Hh.
Qed.

(** Where every record carries 'system_size' and every XLarge record
    carries 'noise_level', the conditions of figure 4 raise nothing. *)
Lemma xlarge_at_Done (level : string) (results : list json_record) :
  (forall r, In r results ->
             exists s, js_system_size r = Some s /\
                       (s = "XLarge"%string -> js_noise_level r <> None)) ->
  forall r, In r results -> exists b, xlarge_at level r = Done b.
Proof.
  intros H r Hr. destruct (H r Hr) as [s [Hs Hl]].
  unfold xlarge_at, get_system_size, get_noise_level. rewrite Hs.
  cbn [subscript and_then].
  destruct (String.eqb_spec s "XLarge") as [Heq | _].
  - destruct (js_noise_level r) as [l |]; [| exfalso; exact (Hl Heq eq_refl)].
    eexists. reflexivity.
  - eexists. reflexivity.
Qed.

(** X11: figure 4 has no guard around its two [...][0]: where every
    record carries 'system_size' and every XLarge record carries
    'noise_level', it raises IndexError exactly when the results hold no
    XLarge record at level 'Baseline' or none at level 'Very High'. *)
Theorem fig4_index_error (results : list json_record) :
  (forall r, In r results ->
             exists s, js_system_size r = Some s /\
                       (s = "XLarge"%string -> js_noise_level r <> None)) ->
  (fig4_baseline_comparison results
   = Failed (IndexError "list index out of range") <->
   ~ (exists r, In r results /\ is_xlarge_at "Baseline" r) \/
   ~ (exists r, In r results /\ is_xlarge_at "Very High" r)).
Proof.
  intros Hwk. unfold fig4_baseline_comparison.
  rewrite (comprehension_select _ _ (xlarge_at_Done "Baseline" _ Hwk)).
  cbn [and_then].
  rewrite <- !not_holds_xlarge_at, <- !filter_nil_iff.
  destruct (filter (holds (xlarge_at "Baseline")) results) as [| rb lb].
  - cbn. split; [intros _; left; reflexivity | reflexivity].
  - cbn [first_item and_then].
    rewrite (comprehension_select _ _ (xlarge_at_Done "Very High" _ Hwk)).
    cbn [and_then].
    destruct (filter (holds (xlarge_at "Very High")) results) as [| ro lo].
    + cbn. split; [intros _; right; reflexivity | reflexivity].
    + cbn [first_item and_then]. unfold get_max_phi.
      split.
      * destruct (js_max_phi rb), (js_max_phi ro); cbn; discriminate.
      * intros [H | H]; discriminate.
Qed.

Lemma fig4_index_error_witness :
  fig4_baseline_comparison (firstn 1 json_sample)
  = Failed (IndexError "list index out of range") <->
  ~ (exists r, In r (firstn 1 json_sample) /\ is_xlarge_at "Baseline" r) \/
  ~ (exists r, In r (firstn 1 json_sample) /\ is_xlarge_at "Very High" r).
Proof.
  apply (fig4_index_error (firstn 1 json_sample)).
  intros r [<- | []]. exists "Small"%string. split; [reflexivity |].
  discriminate.
Defined.

(** What figure 4 has selected when it returns. *)
Lemma fig4_success (results : list json_record) (phi_values : list float64) :
  fig4_baseline_comparison results = Done phi_values ->
  exists pre_b rb post_b pre_o ro post_o b o,
    phi_values = [b; o] /\
    results = pre_b ++ rb :: post_b /\
    is_xlarge_at "Baseline" rb /\ js_max_phi rb = Some b /\
    (forall r, In r pre_b -> ~ is_xlarge_at "Baseline" r) /\
    results = pre_o ++ ro :: post_o /\
    is_xlarge_at "Very High" ro /\ js_max_phi ro = Some o /\
    (forall r, In r pre_o -> ~ is_xlarge_at "Very High" r).
Proof.
  unfold fig4_baseline_comparison. intros H.
  destruct (comprehension Done (xlarge_at "Baseline") results)
    as [lb | e] eqn:Hb; [| discriminate].
  apply comprehension_select_success in Hb.
  destruct lb as [| rb lb]; [discriminate |]. cbn [and_then first_item] in H.
  destruct (comprehension Done (xlarge_at "Very High") results)
    as [lo | e] eqn:Ho; [| discriminate].
  apply comprehension_select_success in Ho.
  destruct lo as [| ro lo]; [discriminate |]. cbn [and_then first_item] in H.
  unfold get_max_phi in H.
  destruct (js_max_phi rb) as [b |] eqn:Hpb; [| discriminate].
  destruct (js_max_phi ro) as [o |] eqn:Hpo; [| discriminate].
  cbn in H. injection H as <-.
  destruct (filter_head_split _ _ _ _ (eq_sym Hb))
    as [pre_b [post_b [Hsb [Hrb Hpre_b]]]].
  destruct (filter_head_split _ _ _ _ (eq_sym Ho))
    as [pre_o [post_o [Hso [Hro Hpre_o]]]].
  exists pre_b, rb, post_b, pre_o, ro, post_o, b, o.
  split; [reflexivity |]. split; [exact Hsb |].
  split; [apply holds_xlarge_at; exact Hrb |]. split; [exact Hpb |].
  split.
  { intros r Hr Hx. apply holds_xlarge_at in Hx.
    rewrite (Hpre_b r Hr) in Hx. discriminate. }
  split; [exact Hso |].
  split; [apply holds_xlarge_at; exact Hro |]. split; [exact Hpo |].
  intros r Hr Hx. apply holds_xlarge_at in Hx.
  rewrite (Hpre_o r Hr) in Hx. discriminate.
Qed.

(** X12: when figure 4 returns, its two bar heights are the 'max_phi' of
    the first XLarge record at level 'Baseline' and of the first XLarge
    record at level 'Very High', in the order of the file; later records
    of the same system and level are ignored. *)
Theorem fig4_values (results : list json_record) (phi_values : list float64) :
  fig4_baseline_comparison results = Done phi_values ->
  exists pre_b rb post_b pre_o ro post_o b o,
    phi_values = [b; o] /\
    results = pre_b ++ rb :: post_b /\
    is_xlarge_at "Baseline" rb /\ js_max_phi rb = Some b /\
    (forall r, In r pre_b -> ~ is_xlarge_at "Baseline" r) /\
    results = pre_o ++ ro :: post_o /\
    is_xlarge_at "Very High" ro /\ js_max_phi ro = Some o /\
    (forall r, In r pre_o -> ~ is_xlarge_at "Very High" r).
Proof. exact (fig4_success results phi_values). Qed.

Lemma fig4_values_witness :
  exists pre_b rb post_b pre_o ro post_o b o,
    [0%float; 3%float] = [b; o] /\
    json_sample = pre_b ++ rb :: post_b /\
    is_xlarge_at "Baseline" rb /\ js_max_phi rb = Some b /\
    (forall r, In r pre_b -> ~ is_xlarge_at "Baseline" r) /\
    json_sample = pre_o ++ ro :: post_o /\
    is_xlarge_at "Very High" ro /\ js_max_phi ro = Some o /\
    (forall r, In r pre_o -> ~ is_xlarge_at "Very High" r).
Proof.
  apply (fig4_values json_sample [0%float; 3%float]). reflexivity.
Defined.

(** X13: a record of a system other than XLarge is invisible to figures
    2 and 4, whatever keys it lacks: removing it changes neither the
    observations of the fit nor the outcome of figure 4. *)
Theorem other_systems_ignored
    (scipy_curve_fit : Call -> result (popt_t * pcov_t)) (np : Numpy)
    (pre post : list json_record) (r : json_record) (s : string) :
  js_system_size r = Some s ->
  s <> "XLarge"%string ->
  fig2_stochastic_resonance_json scipy_curve_fit np (pre ++ r :: post)
  = fig2_stochastic_resonance_json scipy_curve_fit np (pre ++ post) /\
  fig4_baseline_comparison (pre ++ r :: post)
  = fig4_baseline_comparison (pre ++ post).
Proof.
  intros Hs Hne.
  assert (Hneq : String.eqb s "XLarge" = false) by (apply String.eqb_neq; exact Hne).
  split.
  - unfold fig2_stochastic_resonance_json, fig2_observations.
    rewrite (comprehension_skip Done (has_size "XLarge") pre post r);
      [reflexivity |].
    unfold has_size, get_system_size. rewrite Hs. cbn. rewrite Hneq. reflexivity.
  - assert (Hskip : forall level,
               comprehension Done (xlarge_at level) (pre ++ r :: post)
               = comprehension Done (xlarge_at level) (pre ++ post)).
    { intros level. apply comprehension_skip.
      unfold xlarge_at, get_system_size. rewrite Hs. cbn. rewrite Hneq.
      reflexivity. }
    unfold fig4_baseline_comparison. rewrite (Hskip "Baseline"%string).
    destruct (comprehension Done (xlarge_at "Baseline") (pre ++ post))
      as [[| rb lb] | e]; cbn [and_then first_item]; try reflexivity.
    rewrite (Hskip "Very High"%string). reflexivity.
Qed.

Lemma other_systems_ignored_witness :
  fig2_stochastic_resonance_json scipy_no_convergence numpy_sample
    (firstn 4 json_sample ++ mkJson (Some "Tiny"%string) None None None None :: [])
  = fig2_stochastic_resonance_json scipy_no_convergence numpy_sample (firstn 4 json_sample ++ []) /\
  fig4_baseline_comparison
    (firstn 4 json_sample ++ mkJson (Some "Tiny"%string) None None None None :: [])
  = fig4_baseline_comparison (firstn 4 json_sample ++ []).
Proof.
  apply (other_systems_ignored scipy_no_convergence numpy_sample (firstn 4 json_sample) []
           (mkJson (Some "Tiny"%string) None None None None) "Tiny").
  - reflexivity.
  - discriminate.
Defined.

(** *** Figure 1 *)

Lemma comprehension_ext {A B} (elt elt' : A -> pyres B) (cond : A -> pyres bool)
    (l : list A) :
  (forall x, In x l -> elt x = elt' x) ->
  comprehension elt cond l = comprehension elt' cond l.
Proof.
  induction l as [| x l IH]; intros H; [reflexivity |].
  cbn [comprehension]. rewrite (H x (or_introl eq_refl)).
  rewrite IH by (intros y Hy; apply H; right; exact Hy). reflexivity.
Qed.

Lemma comprehension_all_exists {A B} (elt : A -> pyres B) (l : list A) :
  (forall r, In r l -> exists v, elt r = Done v) ->
  exists out, comprehension elt unconditional l = Done out.
Proof.
  induction l as [| r l IH]; intros H; [exists []; reflexivity |].
  destruct (H r (or_introl eq_refl)) as [v Hv].
  destruct IH as [out Hout]; [intros r' Hr'; apply H; right; exact Hr' |].
  exists (v :: out). cbn [comprehension unconditional and_then].
  rewrite Hv. cbn [and_then]. rewrite Hout. reflexivity.
Qed.

(** What one iteration of the loop of figure 1 has read when it
    returns. *)
Lemma fig1_series_success (results : list json_record)
    (size color marker : string) (s : series) :
  fig1_series results size color marker = Done s ->
  series_size s = size /\ series_color s = color /\ series_marker s = marker /\
  Forall2 (fun r v => js_noise_amplitude r = Some v)
    (filter (holds (has_size size)) results) (series_noise s) /\
  Forall2 (fun r v => js_max_phi r = Some v)
    (filter (holds (has_size size)) results) (series_phi_max s) /\
  match filter (holds (has_size size)) results with
  | [] => series_neurons s = 0%Z
  | r0 :: _ => js_effective_neurons r0 = Some (series_neurons s)
  end.
Proof.
  unfold fig1_series. intros H.
  destruct (comprehension Done (has_size size) results) as [size_data | e] eqn:Hd;
    [| discriminate].
  apply comprehension_select_success in Hd. subst size_data.
  cbn [and_then] in H.
  destruct (comprehension get_noise_amplitude unconditional _) as [noise | e] eqn:Hn;
    [| discriminate].
  cbn [and_then] in H.
  destruct (comprehension get_max_phi unconditional _) as [phi | e] eqn:Hp;
    [| discriminate].
  cbn [and_then] in H.
  apply comprehension_all_success in Hn. apply comprehension_all_success in Hp.
  assert (Hn' : Forall2 (fun r v => js_noise_amplitude r = Some v)
                  (filter (holds (has_size size)) results) noise).
  { eapply Forall2_impl; [| exact Hn]. intros r v Hv.
    apply subscript_Done in Hv. exact Hv. }
  assert (Hp' : Forall2 (fun r v => js_max_phi r = Some v)
                  (filter (holds (has_size size)) results) phi).
  { eapply Forall2_impl; [| exact Hp]. intros r v Hv.
    apply subscript_Done in Hv. exact Hv. }
  destruct (filter (holds (has_size size)) results) as [| r0 rest].
  - cbn in H. injection H as <-. cbn. repeat split; assumption.
  - unfold get_effective_neurons in H.
    destruct (js_effective_neurons r0) as [n |]; [| discriminate].
    cbn in H. injection H as <-. cbn. repeat split; assumption.
Qed.

(** A returning figure 1 has run its four iterations. *)
Lemma fig1_success (results : list json_record) (ss : list series) :
  fig1_phi_vs_noise results = Done ss ->
  exists s1 s2 s3 s4,
    ss = [s1; s2; s3; s4] /\
    fig1_series results "Small" "#1f77b4" "o" = Done s1 /\
    fig1_series results "Medium" "#ff7f0e" "s" = Done s2 /\
    fig1_series results "Large" "#2ca02c" "^" = Done s3 /\
    fig1_series results "XLarge" "#d62728" "D" = Done s4.
Proof.
  unfold fig1_phi_vs_noise. intros H.
  apply comprehension_all_success in H. cbn in H.
  inversion H as [| x1 s1 l1 ss1 H1 Hr1]; subst; clear H.
  inversion Hr1 as [| x2 s2 l2 ss2 H2 Hr2]; subst; clear Hr1.
  inversion Hr2 as [| x3 s3 l3 ss3 H3 Hr3]; subst; clear Hr2.
  inversion Hr3 as [| x4 s4 l4 ss4 H4 Hr4]; subst; clear Hr3.
  inversion Hr4; subst; clear Hr4.
  exists s1, s2, s3, s4. repeat split; assumption.
Qed.

(** X14: when figure 1 returns, it has plotted four series, for Small,
    Medium, Large and XLarge in this order with their colours and
    markers.  Each series lists the 'noise_amplitude' and the 'max_phi'
    of the records of its system, in the order of the file, and its
    neurons are the 'effective_neurons' of the first of these records
    only, or 0 when the system has no record. *)
Theorem fig1_series_content (results : list json_record) (ss : list series) :
  fig1_phi_vs_noise results = Done ss ->
  map series_size ss = fig1_sizes /\
  map series_color ss = fig1_colors /\
  map series_marker ss = fig1_markers /\
  forall s, In s ss ->
    Forall2 (fun r v => js_noise_amplitude r = Some v)
      (filter (holds (has_size (series_size s))) results) (series_noise s) /\
    Forall2 (fun r v => js_max_phi r = Some v)
      (filter (holds (has_size (series_size s))) results) (series_phi_max s) /\
    match filter (holds (has_size (series_size s))) results with
    | [] => series_neurons s = 0%Z
    | r0 :: _ => js_effective_neurons r0 = Some (series_neurons s)
    end.
Proof.
  intros H.
  destruct (fig1_success _ _ H) as [s1 [s2 [s3 [s4 [-> [H1 [H2 [H3 H4]]]]]]]].
  apply fig1_series_success in H1, H2, H3, H4.
  destruct H1 as [Hz1 [Hc1 [Hm1 H1]]]. destruct H2 as [Hz2 [Hc2 [Hm2 H2]]].
  destruct H3 as [Hz3 [Hc3 [Hm3 H3]]]. destruct H4 as [Hz4 [Hc4 [Hm4 H4]]].
  cbn [map]. unfold fig1_sizes, fig1_colors, fig1_markers.
  split; [congruence |]. split; [congruence |]. split; [congruence |].
  intros s [<- | [<- | [<- | [<- | []]]]].
  - rewrite Hz1. exact H1.
  - rewrite Hz2. exact H2.
  - rewrite Hz3. exact H3.
  - rewrite Hz4. exact H4.
Qed.

Lemma fig1_series_content_witness :
  map series_size fig1_sample_series = fig1_sizes /\
  map series_color fig1_sample_series = fig1_colors /\
  map series_marker fig1_sample_series = fig1_markers /\
  forall s, In s fig1_sample_series ->
    Forall2 (fun r v => js_noise_amplitude r = Some v)
      (filter (holds (has_size (series_size s))) json_sample) (series_noise s) /\
    Forall2 (fun r v => js_max_phi r = Some v)
      (filter (holds (has_size (series_size s))) json_sample) (series_phi_max s) /\
    match filter (holds (has_size (series_size s))) json_sample with
    | [] => series_neurons s = 0%Z
    | r0 :: _ => js_effective_neurons r0 = Some (series_neurons s)
    end.
Proof.
  apply (fig1_series_content json_sample). reflexivity.
Defined.

Lemma holds_has_size_eq (size : string) (r : json_record) :
  holds (has_size size) r
  = match js_system_size r with
    | Some s => String.eqb s size
    | None => false
    end.
Proof.
  unfold holds, has_size, get_system_size.
  destruct (js_system_size r) as [s |]; [| reflexivity].
  cbn. destruct (String.eqb s size); reflexivity.
Qed.

Lemma plotted_system_count (l : list json_record) :
  (List.length (filter (holds (has_size "Small")) l)
   + (List.length (filter (holds (has_size "Medium")) l)
      + (List.length (filter (holds (has_size "Large")) l)
         + (List.length (filter (holds (has_size "XLarge")) l) + 0))))%nat
  = List.length (filter plotted_system l).
Proof.
  induction l as [| r l IH]; [reflexivity |].
  cbn [filter]. rewrite !holds_has_size_eq. unfold plotted_system at 1.
  destruct (js_system_size r) as [s |]; [| exact IH].
  unfold fig1_sizes. cbn [existsb].
  destruct (String.eqb_spec s "Small") as [-> | _];
    [cbn [String.eqb Ascii.eqb Bool.eqb orb List.length]; lia |].
  destruct (String.eqb_spec s "Medium") as [-> | _];
    [cbn [String.eqb Ascii.eqb Bool.eqb orb List.length]; lia |].
  destruct (String.eqb_spec s "Large") as [-> | _];
    [cbn [String.eqb Ascii.eqb Bool.eqb orb List.length]; lia |].
  destruct (String.eqb_spec s "XLarge") as [-> | _];
    [cbn [String.eqb Ascii.eqb Bool.eqb orb List.length]; lia |].
  cbn [orb]. exact IH.
Qed.

(** X15: when figure 1 returns, every series has as many noise values as
    responses, and the number of plotted points is the number of records
    of the four systems: such a record is plotted once, a record of any
    other system never. *)
Theorem fig1_points (results : list json_record) (ss : list series) :
  fig1_phi_vs_noise results = Done ss ->
  (forall s, In s ss ->
             List.length (series_noise s) = List.length (series_phi_max s)) /\
  plotted_points ss = List.length (filter plotted_system results).
Proof.
  intros H.
  destruct (fig1_success _ _ H) as [s1 [s2 [s3 [s4 [-> [H1 [H2 [H3 H4]]]]]]]].
  apply fig1_series_success in H1, H2, H3, H4.
  destruct H1 as [_ [_ [_ [Hn1 [Hp1 _]]]]]. destruct H2 as [_ [_ [_ [Hn2 [Hp2 _]]]]].
  destruct H3 as [_ [_ [_ [Hn3 [Hp3 _]]]]]. destruct H4 as [_ [_ [_ [Hn4 [Hp4 _]]]]].
  apply Forall2_length_eq in Hn1, Hn2, Hn3, Hn4, Hp1, Hp2, Hp3, Hp4.
  split.
  - intros s [<- | [<- | [<- | [<- | []]]]]; congruence.
  - unfold plotted_points. cbn [map list_sum].
    rewrite <- Hn1, <- Hn2, <- Hn3, <- Hn4. apply plotted_system_count.
Qed.

Lemma fig1_points_witness :
  (forall s, In s fig1_sample_series ->
             List.length (series_noise s) = List.length (series_phi_max s)) /\
  plotted_points fig1_sample_series
  = List.length (filter plotted_system json_sample).
Proof.
  apply (fig1_points json_sample). reflexivity.
Defined.

Lemma has_size_total (size : string) (results : list json_record) :
  (forall r, In r results -> js_system_size r <> None) ->
  forall r, In r results -> exists b, has_size size r = Done b.
Proof.
  intros H r Hr. specialize (H r Hr). unfold has_size, get_system_size.
  destruct (js_system_size r); [| congruence]. eexists. reflexivity.
Qed.

(** One iteration of the loop of figure 1 returns as soon as the records
    carry the keys it reads. *)
Lemma fig1_series_returns (results : list json_record)
    (size color marker : string) :
  (forall r, In r results -> js_system_size r <> None) ->
  (forall r, In r results -> js_system_size r = Some size ->
             js_noise_amplitude r <> None /\ js_max_phi r <> None /\
             js_effective_neurons r <> None) ->
  exists s, fig1_series results size color marker = Done s.
Proof.
  intros Hsize Hkeys. unfold fig1_series.
  rewrite (comprehension_select _ _ (has_size_total size _ Hsize)).
  cbn [and_then].
  assert (Hin : forall r, In r (filter (holds (has_size size)) results) ->
                          js_noise_amplitude r <> None /\ js_max_phi r <> None /\
                          js_effective_neurons r <> None).
  { intros r Hr. apply filter_In in Hr. destruct Hr as [Hr Hh].
    apply Hkeys; [exact Hr | apply holds_has_size; exact Hh]. }
  destruct (comprehension_all_exists get_noise_amplitude
              (filter (holds (has_size size)) results)) as [noise Hn].
  { intros r Hr. destruct (Hin r Hr) as [Hx _]. unfold get_noise_amplitude.
    destruct (js_noise_amplitude r); [| congruence]. eexists. reflexivity. }
  destruct (comprehension_all_exists get_max_phi
              (filter (holds (has_size size)) results)) as [phi Hp].
  { intros r Hr. destruct (Hin r Hr) as [_ [Hy _]]. unfold get_max_phi.
    destruct (js_max_phi r); [| congruence]. eexists. reflexivity. }
  rewrite Hn. cbn [and_then]. rewrite Hp. cbn [and_then].
  destruct (filter (holds (has_size size)) results) as [| r0 rest].
  - eexists. reflexivity.
  - destruct (Hin r0 (or_introl eq_refl)) as [_ [_ Hz]].
    unfold get_effective_neurons.
    destruct (js_effective_neurons r0); [| congruence]. eexists. reflexivity.
Qed.

(** X16: figure 1 guards its [size_data[0]]: where every record carries
    'system_size' and the records of the four systems carry
    'noise_amplitude', 'max_phi' and 'effective_neurons', it returns, also
    when one of the four systems has no record at all; that system then
    gets an empty series labelled with 0 neurons. *)
Theorem fig1_absent_system (results : list json_record) :
  (forall r, In r results -> js_system_size r <> None) ->
  (forall r s, In r results -> js_system_size r = Some s -> In s fig1_sizes ->
               js_noise_amplitude r <> None /\ js_max_phi r <> None /\
               js_effective_neurons r <> None) ->
  exists ss,
    fig1_phi_vs_noise results = Done ss /\
    forall s, In s ss ->
      (forall r, In r results -> js_system_size r <> Some (series_size s)) ->
      series_noise s = [] /\ series_phi_max s = [] /\ series_neurons s = 0%Z.
Proof.
  intros Hsize Hkeys.
  assert (Hret : forall size color marker,
             In size fig1_sizes ->
             exists s, fig1_series results size color marker = Done s).
  { intros size color marker Hin. apply fig1_series_returns; [exact Hsize |].
    intros r Hr Hs. exact (Hkeys r size Hr Hs Hin). }
  destruct (Hret "Small" "#1f77b4" "o")%string as [s1 H1]; [simpl; tauto |].
  destruct (Hret "Medium" "#ff7f0e" "s")%string as [s2 H2]; [simpl; tauto |].
  destruct (Hret "Large" "#2ca02c" "^")%string as [s3 H3]; [simpl; tauto |].
  destruct (Hret "XLarge" "#d62728" "D")%string as [s4 H4]; [simpl; tauto |].
  exists [s1; s2; s3; s4]. split.
  - unfold fig1_phi_vs_noise. cbn.
    rewrite H1. cbn. rewrite H2. cbn. rewrite H3. cbn. rewrite H4. reflexivity.
  - assert (Hempty : forall size color marker s,
               fig1_series results size color marker = Done s ->
               (forall r, In r results -> js_system_size r <> Some (series_size s)) ->
               series_noise s = [] /\ series_phi_max s = [] /\
               series_neurons s = 0%Z).
    { intros size color marker s Hs Hnone.
      apply fig1_series_success in Hs.
      destruct Hs as [Hz [_ [_ [Hn [Hp Hneur]]]]].
      assert (Hnil : filter (holds (has_size size)) results = []).
      { apply filter_nil_iff. intros r Hr.
        destruct (holds (has_size size) r) eqn:Hh; [| reflexivity].
        apply holds_has_size in Hh. exfalso. apply (Hnone r Hr). congruence. }
      rewrite Hnil in Hn, Hp, Hneur.
      inversion Hn. inversion Hp. repeat split; congruence. }
    intros s [<- | [<- | [<- | [<- | []]]]]; eapply Hempty; eassumption.
Qed.

Lemma fig1_absent_system_witness :
  exists ss,
    fig1_phi_vs_noise json_sample = Done ss /\
    forall s, In s ss ->
      (forall r, In r json_sample -> js_system_size r <> Some (series_size s)) ->
      series_noise s = [] /\ series_phi_max s = [] /\ series_neurons s = 0%Z.
Proof.
  apply (fig1_absent_system json_sample).
  - intros r [<- | [<- | [<- | [<- | [<- | []]]]]]; discriminate.
  - intros r s [<- | [<- | [<- | [<- | [<- | []]]]]] Hs Hin;
      try (repeat split; discriminate).
    injection Hs as <-. simpl in Hin.
    destruct Hin as [H | [H | [H | [H | []]]]]; discriminate.
Defined.

(** X17: a record of a system that is none of the four is invisible to
    figure 1, whatever keys it lacks. *)
Theorem fig1_ignores_unknown_system
    (pre post : list json_record) (r : json_record) (s : string) :
  js_system_size r = Some s ->
  ~ In s fig1_sizes ->
  fig1_phi_vs_noise (pre ++ r :: post) = fig1_phi_vs_noise (pre ++ post).
Proof.
  intros Hs Hnot. unfold fig1_phi_vs_noise. apply comprehension_ext.
  intros [size cm] Hscm. apply in_combine_l in Hscm.
  unfold fig1_series. cbn [fst snd].
  rewrite (comprehension_skip Done (has_size size) pre post r);
    [reflexivity |].
  unfold has_size, get_system_size. rewrite Hs. cbn. f_equal.
  apply String.eqb_neq. intros ->. exact (Hnot Hscm).
Qed.

Lemma fig1_ignores_unknown_system_witness :
  fig1_phi_vs_noise
    (firstn 4 json_sample ++ mkJson (Some "Tiny"%string) None None None None :: [])
  = fig1_phi_vs_noise (firstn 4 json_sample ++ []).
Proof.
  apply (fig1_ignores_unknown_system (firstn 4 json_sample) []
           (mkJson (Some "Tiny"%string) None None None None) "Tiny").
  - reflexivity.
  - simpl. intros [H | [H | [H | [H | []]]]]; discriminate.
Defined.

(** *** Figure 3 *)

Lemma holds_has_noise_level (level : string) (r : json_record) :
  holds (has_noise_level level) r = true <-> js_noise_level r = Some level.
Proof.
  unfold holds, has_noise_level, get_noise_level.
  destruct (js_noise_level r) as [l |]; simpl.
  - destruct (String.eqb_spec l level) as [-> | Hne]; split; intros H;
      congruence.
  - split; discriminate.
Qed.

Lemma Forall2_nth_error {A B} (P : A -> B -> Prop) (l : list A) (l' : list B) :
  Forall2 P l l' ->
  forall i x, nth_error l i = Some x ->
              exists y, nth_error l' i = Some y /\ P x y.
Proof.
  induction 1 as [| a b l l' Hab _ IH]; intros i x Hi.
  - destruct i; discriminate.
  - destruct i as [| i]; cbn in *.
    + injection Hi as <-. exists b. split; [reflexivity | exact Hab].
    + exact (IH i x Hi).
Qed.

Lemma nth_error_combine {A B} (l : list A) :
  forall (l' : list B) i a b,
    nth_error l i = Some a -> nth_error l' i = Some b ->
    nth_error (combine l l') i = Some (a, b).
Proof.
  induction l as [| x l IH]; intros l' i a b Ha Hb.
  - destruct i; discriminate.
  - destruct l' as [| y l']; [destruct i; discriminate |].
    destruct i as [| i]; cbn in *.
    + congruence.
    + exact (IH l' i a b Ha Hb).
Qed.

Lemma nth_error_seq_lt (len : nat) :
  forall start i, (i < len)%nat -> nth_error (seq start len) i = Some (start + i)%nat.
Proof.
  induction len as [| len IH]; intros start i Hi; [lia |].
  destruct i as [| i]; cbn.
  - f_equal. lia.
  - rewrite IH by lia. f_equal. lia.
Qed.

(** What figure 3 has read when it returns. *)
Lemma fig3_success (results : list json_record) (chart : bar_chart) :
  fig3_system_scaling results = Done chart ->
  exists neurons phi_max sizes,
    chart = mkBarChart (seq 0 (List.length sizes)) phi_max
              (seq 0 (List.length sizes)) (combine sizes neurons)
              (enumerate (combine phi_max neurons)) /\
    Forall2 (fun r v => js_effective_neurons r = Some v)
      (filter (holds (has_noise_level "Very High")) results) neurons /\
    Forall2 (fun r v => js_max_phi r = Some v)
      (filter (holds (has_noise_level "Very High")) results) phi_max /\
    Forall2 (fun r v => js_system_size r = Some v)
      (filter (holds (has_noise_level "Very High")) results) sizes.
Proof.
  unfold fig3_system_scaling. intros H.
  destruct (comprehension Done (has_noise_level "Very High") results)
    as [optimal_data | e] eqn:Hd; [| discriminate].
  apply comprehension_select_success in Hd. subst optimal_data.
  cbn [and_then] in H.
  destruct (comprehension get_effective_neurons unconditional _)
    as [neurons | e] eqn:Hn; [| discriminate].
  cbn [and_then] in H.
  destruct (comprehension get_max_phi unconditional _) as [phi | e] eqn:Hp;
    [| discriminate].
  cbn [and_then] in H.
  destruct (comprehension get_system_size unconditional _) as [sizes | e] eqn:Hs;
    [| discriminate].
  cbn [and_then] in H. injection H as <-.
  apply comprehension_all_success in Hn, Hp, Hs.
  exists neurons, phi, sizes. split; [reflexivity |].
  repeat split.
  - eapply Forall2_impl; [| exact Hn]. intros r v Hv.
    apply subscript_Done in Hv. exact Hv.
  - eapply Forall2_impl; [| exact Hp]. intros r v Hv.
    apply subscript_Done in Hv. exact Hv.
  - eapply Forall2_impl; [| exact Hs]. intros r v Hv.
    apply subscript_Done in Hv. exact Hv.
Qed.

(** X18: when figure 3 returns, it draws one bar per record at noise
    level 'Very High', in the order of the file, and bar i, tick label i
    and annotation i all describe the i-th such record: its 'max_phi' as
    height and annotated value, its 'system_size' and
    'effective_neurons' as label. *)
Theorem fig3_alignment (results : list json_record) (chart : bar_chart) :
  fig3_system_scaling results = Done chart ->
  bar_positions chart
  = seq 0 (List.length (filter (holds (has_noise_level "Very High")) results)) /\
  tick_positions chart = bar_positions chart /\
  List.length (bar_heights chart) = List.length (bar_positions chart) /\
  forall i r,
    nth_error (filter (holds (has_noise_level "Very High")) results) i = Some r ->
    exists size phi n,
      js_system_size r = Some size /\ js_max_phi r = Some phi /\
      js_effective_neurons r = Some n /\
      nth_error (bar_positions chart) i = Some i /\
      nth_error (bar_heights chart) i = Some phi /\
      nth_error (tick_labels chart) i = Some (size, n) /\
      nth_error (bar_annotations chart) i = Some (i, (phi, n)).
Proof.
  intros H.
  destruct (fig3_success _ _ H) as [neurons [phi [sizes [-> [Hn [Hp Hs]]]]]].
  cbn [bar_positions tick_positions bar_heights tick_labels bar_annotations].
  pose proof (Forall2_length_eq _ _ _ Hn) as Ln.
  pose proof (Forall2_length_eq _ _ _ Hp) as Lp.
  pose proof (Forall2_length_eq _ _ _ Hs) as Ls.
  split; [rewrite Ls; reflexivity |]. split; [reflexivity |].
  split; [rewrite length_seq; congruence |].
  intros i r Hi.
  destruct (Forall2_nth_error _ _ _ Hn i r Hi) as [n [Hni Hnr]].
  destruct (Forall2_nth_error _ _ _ Hp i r Hi) as [v [Hvi Hvr]].
  destruct (Forall2_nth_error _ _ _ Hs i r Hi) as [z [Hzi Hzr]].
  assert (Hlt : (i < List.length sizes)%nat).
  { apply nth_error_Some. congruence. }
  exists z, v, n. repeat (split; [assumption |]).
  split; [exact (nth_error_seq_lt _ 0 i Hlt) |].
  split; [exact Hvi |].
  split; [exact (nth_error_combine _ _ _ _ _ Hzi Hni) |].
  unfold enumerate. apply nth_error_combine.
  - apply (nth_error_seq_lt _ 0 i).
    rewrite length_combine. rewrite <- Lp, <- Ln, Ls. lia.
  - exact (nth_error_combine _ _ _ _ _ Hvi Hni).
Qed.

Lemma fig3_alignment_witness :
  bar_positions fig3_sample_chart
  = seq 0 (List.length
             (filter (holds (has_noise_level "Very High")) json_complete_sample)) /\
  tick_positions fig3_sample_chart = bar_positions fig3_sample_chart /\
  List.length (bar_heights fig3_sample_chart)
  = List.length (bar_positions fig3_sample_chart) /\
  forall i r,
    nth_error (filter (holds (has_noise_level "Very High")) json_complete_sample) i
    = Some r ->
    exists size phi n,
      js_system_size r = Some size /\ js_max_phi r = Some phi /\
      js_effective_neurons r = Some n /\
      nth_error (bar_positions fig3_sample_chart) i = Some i /\
      nth_error (bar_heights fig3_sample_chart) i = Some phi /\
      nth_error (tick_labels fig3_sample_chart) i = Some (size, n) /\
      nth_error (bar_annotations fig3_sample_chart) i = Some (i, (phi, n)).
Proof.
  apply (fig3_alignment json_complete_sample). reflexivity.
Defined.

(** X19: figure 3 reads 'noise_level' in every record: if one record,
    of any system, lacks it, figure 3 raises KeyError('noise_level'). *)
Theorem fig3_missing_noise_level (results : list json_record) (r : json_record) :
  In r results ->
  js_noise_level r = None ->
  fig3_system_scaling results = Failed (KeyError "noise_level").
Proof.
  intros Hin Hnone. unfold fig3_system_scaling.
  rewrite (comprehension_select_failed (has_noise_level "Very High") results
             (KeyError "noise_level")); [reflexivity | |].
  - exists r. split; [exact Hin |].
    unfold has_noise_level, get_noise_level. rewrite Hnone. reflexivity.
  - intros r' e' _ He'. unfold has_noise_level, get_noise_level in He'.
    destruct (js_noise_level r'); simpl in He'; congruence.
Qed.

Lemma fig3_missing_noise_level_witness :
  fig3_system_scaling json_sample = Failed (KeyError "noise_level").
Proof.
  apply (fig3_missing_noise_level json_sample
           (mkJson (Some "Tiny"%string) None None None None)).
  - unfold json_sample. simpl. tauto.
  - reflexivity.
Defined.

(** *** The figures together *)

Lemma columns_of_records (noise phi_max : list float64) :
  List.length noise = List.length phi_max ->
  map noise_amplitude
    (map (fun xy => mkRecord "XLarge" (fst xy) (snd xy)) (combine noise phi_max))
  = noise /\
  map max_phi
    (map (fun xy => mkRecord "XLarge" (fst xy) (snd xy)) (combine noise phi_max))
  = phi_max.
Proof.
  revert phi_max. induction noise as [| x noise IH]; intros [| y phi] H;
    try discriminate; [split; reflexivity |].
  cbn in H. injection H as H. destruct (IH phi H) as [IH1 IH2].
  cbn [combine map fst snd noise_amplitude max_phi]. rewrite IH1, IH2.
  split; reflexivity.
Qed.

(** What lines 113-115 have read when they raise nothing. *)
Lemma fig2_observations_success (results : list json_record)
    (xlarge_data : list record) :
  fig2_observations results = Done xlarge_data ->
  Forall2 (fun r v => js_noise_amplitude r = Some v)
    (filter (holds (has_size "XLarge")) results)
    (map noise_amplitude xlarge_data) /\
  Forall2 (fun r v => js_max_phi r = Some v)
    (filter (holds (has_size "XLarge")) results)
    (map max_phi xlarge_data).
Proof.
  unfold fig2_observations. intros H.
  destruct (comprehension Done (has_size "XLarge") results) as [xl | e] eqn:Hd;
    [| discriminate].
  apply comprehension_select_success in Hd. subst xl. cbn [and_then] in H.
  destruct (comprehension get_noise_amplitude unconditional _) as [noise | e] eqn:Hn;
    [| discriminate].
  cbn [and_then] in H.
  destruct (comprehension get_max_phi unconditional _) as [phi | e] eqn:Hp;
    [| discriminate].
  cbn [and_then] in H. injection H as <-.
  apply comprehension_all_success in Hn, Hp.
  destruct (columns_of_records noise phi) as [Hx Hy].
  { rewrite <- (Forall2_length_eq _ _ _ Hn). exact (Forall2_length_eq _ _ _ Hp). }
  rewrite Hx, Hy. split.
  - eapply Forall2_impl; [| exact Hn]. intros r v Hv.
    apply subscript_Done in Hv. exact Hv.
  - eapply Forall2_impl; [| exact Hp]. intros r v Hv.
    apply subscript_Done in Hv. exact Hv.
Qed.

(** X20: the two bars of figure 4 are observations of figure 2: when
    figure 4 returns and lines 113-115 of figure 2 raise nothing, the fit
    of figure 2 makes its one library call with both bar heights among
    the responses, works on a non-empty set and therefore returns a
    result, whatever the library does. *)
Theorem fig4_bars_are_fit_observations
    (scipy_curve_fit : Call -> result (popt_t * pcov_t)) (np : Numpy)
    (results : list json_record) (phi_values : list float64)
    (fit_computation : Py FitResult) :
  fig4_baseline_comparison results = Done phi_values ->
  fig2_stochastic_resonance_json scipy_curve_fit np results = Done fit_computation ->
  (exists r, returns fit_computation r) /\
  (forall e, ~ raises fit_computation e) /\
  exists call,
    calls fit_computation = [call] /\
    forall v, In v phi_values -> In v (call_ydata call).
Proof.
  intros H4 H2. unfold fig2_stochastic_resonance_json in H2.
  destruct (fig2_observations results) as [xs | e] eqn:Hobs; [| discriminate].
  cbn [and_then] in H2. injection H2 as <-.
  destruct (fig2_observations_success _ _ Hobs) as [_ Hp].
  destruct (fig4_success _ _ H4)
    as [pre_b [rb [post_b [pre_o [ro [post_o [b [o
         [-> [Hsb [[Hxb _] [Hpb [_ [Hso [[Hxo _] [Hpo _]]]]]]]]]]]]]]]].
  assert (Hin : forall r v, In r results -> js_system_size r = Some "XLarge"%string ->
                            js_max_phi r = Some v -> In v (map max_phi xs)).
  { intros r v Hr Hx Hv.
    assert (Hf : In r (filter (holds (has_size "XLarge")) results)).
    { apply filter_In. split; [exact Hr | apply holds_has_size; exact Hx]. }
    destruct (Forall2_In_l _ _ _ _ Hp Hf) as [v' [Hv' Heq]]. congruence. }
  assert (Hb : In b (map max_phi xs)).
  { apply (Hin rb); [rewrite Hsb; apply in_elt | exact Hxb | exact Hpb]. }
  assert (Ho : In o (map max_phi xs)).
  { apply (Hin ro); [rewrite Hso; apply in_elt | exact Hxo | exact Hpo]. }
  assert (Hne : xs <> []) by (intros ->; destruct Hb).
  destruct (fit_nonempty_returns scipy_curve_fit np xs Hne) as [r Hr].
  split; [exists r; exact Hr |].
  split; [intros e; exact (returns_not_raises _ _ e Hr) |].
  eexists. split; [apply fit_calls |].
  cbn [call_ydata]. intros v [<- | [<- | []]]; assumption.
Qed.

Lemma fig4_bars_are_fit_observations_witness :
  (exists r, returns (fig2_stochastic_resonance scipy_no_convergence numpy_sample typed_sample) r) /\
  (forall e, ~ raises (fig2_stochastic_resonance scipy_no_convergence numpy_sample typed_sample) e) /\
  exists call,
    calls (fig2_stochastic_resonance scipy_no_convergence numpy_sample typed_sample) = [call] /\
    forall v, In v [0%float; 3%float] -> In v (call_ydata call).
Proof.
  apply (fig4_bars_are_fit_observations scipy_no_convergence numpy_sample json_complete_sample
           [0%float; 3%float]
           (fig2_stochastic_resonance scipy_no_convergence numpy_sample typed_sample)).
  - reflexivity.
  - reflexivity.
Defined.

(** X21: figures 1 and 2 show the same XLarge points: when figure 1
    returns, lines 113-115 of figure 2 raise nothing, and the noise
    amplitudes and responses handed to the fit are those of the fourth
    series of figure 1. *)
Theorem fig1_xlarge_series_is_fit_data (results : list json_record)
    (ss : list series) :
  fig1_phi_vs_noise results = Done ss ->
  exists s xlarge_data,
    nth_error ss 3 = Some s /\
    series_size s = "XLarge"%string /\
    fig2_observations results = Done xlarge_data /\
    map noise_amplitude xlarge_data = series_noise s /\
    map max_phi xlarge_data = series_phi_max s.
Proof.
  intros H.
  destruct (fig1_success _ _ H) as [s1 [s2 [s3 [s4 [-> [_ [_ [_ H4]]]]]]]].
  unfold fig1_series in H4. unfold fig2_observations.
  destruct (comprehension Done (has_size "XLarge") results) as [xl | e] eqn:Hd;
    [| discriminate].
  cbn [and_then] in *.
  destruct (comprehension get_noise_amplitude unconditional xl) as [noise | e] eqn:Hn;
    [| discriminate].
  cbn [and_then] in *.
  destruct (comprehension get_max_phi unconditional xl) as [phi | e] eqn:Hp;
    [| discriminate].
  cbn [and_then] in *.
  apply comprehension_all_success in Hn, Hp.
  destruct (columns_of_records noise phi) as [Hx Hy].
  { rewrite <- (Forall2_length_eq _ _ _ Hn). exact (Forall2_length_eq _ _ _ Hp). }
  assert (Hs4 : series_size s4 = "XLarge"%string /\ series_noise s4 = noise /\
                series_phi_max s4 = phi).
  { destruct xl as [| r0 rest].
    - cbn in H4. injection H4 as <-. repeat split.
    - destruct (get_effective_neurons r0); [| discriminate].
      cbn in H4. injection H4 as <-. repeat split. }
  destruct Hs4 as [Hz [Hsn Hsp]].
  exists s4. eexists. split; [reflexivity |]. split; [exact Hz |].
  split; [reflexivity |]. split; congruence.
Qed.

Lemma fig1_xlarge_series_is_fit_data_witness :
  exists s xlarge_data,
    nth_error fig1_sample_series 3 = Some s /\
    series_size s = "XLarge"%string /\
    fig2_observations json_sample = Done xlarge_data /\
    map noise_amplitude xlarge_data = series_noise s /\
    map max_phi xlarge_data = series_phi_max s.
Proof.
  apply (fig1_xlarge_series_is_fit_data json_sample). reflexivity.
Defined.

(** X22: the 'Very High' bar of figure 4 is one of the bars of figure 3:
    when both figures return, the second bar height of figure 4 is the
    height of a bar of figure 3 whose tick label names the XLarge
    system. *)
Theorem fig4_optimum_is_fig3_bar (results : list json_record)
    (phi_values : list float64) (chart : bar_chart) :
  fig4_baseline_comparison results = Done phi_values ->
  fig3_system_scaling results = Done chart ->
  exists b o i n,
    phi_values = [b; o] /\
    nth_error (bar_heights chart) i = Some o /\
    nth_error (tick_labels chart) i = Some ("XLarge"%string, n).
Proof.
  intros H4 H3.
  destruct (fig4_success _ _ H4)
    as [pre_b [rb [post_b [pre_o [ro [post_o [b [o
         [-> [_ [_ [_ [_ [Hso [[Hxo Hlo] [Hpo _]]]]]]]]]]]]]]]].
  destruct (fig3_success _ _ H3) as [neurons [phi [sizes [-> [Hn [Hp Hs]]]]]].
  assert (Hf : In ro (filter (holds (has_noise_level "Very High")) results)).
  { apply filter_In. split; [rewrite Hso; apply in_elt |].
    apply holds_has_noise_level. exact Hlo. }
  apply In_nth_error in Hf. destruct Hf as [i Hi].
  destruct (Forall2_nth_error _ _ _ Hn i ro Hi) as [n [Hni _]].
  destruct (Forall2_nth_error _ _ _ Hp i ro Hi) as [v [Hvi Hv]].
  destruct (Forall2_nth_error _ _ _ Hs i ro Hi) as [z [Hzi Hz]].
  exists b, o, i, n. split; [reflexivity |].
  cbn [bar_heights tick_labels]. split.
  - rewrite Hvi. congruence.
  - replace "XLarge"%string with z by congruence.
    exact (nth_error_combine _ _ _ _ _ Hzi Hni).
Qed.

Lemma fig4_optimum_is_fig3_bar_witness :
  exists b o i n,
    [0%float; 3%float] = [b; o] /\
    nth_error (bar_heights fig3_sample_chart) i = Some o /\
    nth_error (tick_labels fig3_sample_chart) i = Some ("XLarge"%string, n).
Proof.
  apply (fig4_optimum_is_fig3_bar json_complete_sample [0%float; 3%float]).
  - reflexivity.
  - reflexivity.
Defined.


(** *** Saving a figure *)

(** X23: [save_figure] asks for the PDF, the PNG and the EPS file of the
    figure under the directory of the script, in this order and at 600
    dpi, and stops at the first [savefig] that raises: the exception
    reaches the caller, no later file is asked for and nothing is
    printed.  When the three calls return, it prints its 'Generated' line
    and returns. *)
Theorem save_figure_message
    (path : Type) (output_dir : path) (joinpath : path -> string -> path)
    (matplotlib_savefig : savefig_call path -> world path -> result unit)
    (name : string) (w : world path) :
  figure_files output_dir joinpath name
  = [mkSavefig (joinpath output_dir (name ++ ".pdf")%string) "pdf" 600%Z;
     mkSavefig (joinpath output_dir (name ++ ".png")%string) "png" 600%Z;
     mkSavefig (joinpath output_dir (name ++ ".eps")%string) "eps" 600%Z] /\
  (forall (k : nat) (call : savefig_call path) (e : exception),
      nth_error (figure_files output_dir joinpath name) k = Some call ->
      (forall j call', (j < k)%nat ->
         nth_error (figure_files output_dir joinpath name) j = Some call' ->
         matplotlib_savefig call'
           (after_calls (figure_files output_dir joinpath name) w j) = Ok tt) ->
      matplotlib_savefig call
        (after_calls (figure_files output_dir joinpath name) w k) = Raise e ->
      save_figure output_dir joinpath matplotlib_savefig name w
      = (Raise e,
         after_calls (figure_files output_dir joinpath name) w (S k))) /\
  ((forall j call',
      nth_error (figure_files output_dir joinpath name) j = Some call' ->
      matplotlib_savefig call'
        (after_calls (figure_files output_dir joinpath name) w j) = Ok tt) ->
   save_figure output_dir joinpath matplotlib_savefig name w
   = (Ok tt,
      mkWorld (saved w ++ figure_files output_dir joinpath name)
        (printed w ++ [("Generated: " ++ name ++ ".pdf, " ++ name ++ ".png, "
                         ++ name ++ ".eps")%string]))).
Proof.
  split; [reflexivity |].
  destruct w as [sv pr].
  unfold save_figure, io_bind, savefig, print, figure_files, after_calls, DPI.
  cbn [saved printed].
  split.
  - intros k call e Hk Hbefore Hraise.
    destruct k as [| [| [| k]]]; cbn [nth_error] in Hk.
    + injection Hk as <-. cbn [firstn] in Hraise. rewrite app_nil_r in Hraise.
      rewrite Hraise. reflexivity.
    + injection Hk as <-.
      pose proof (Hbefore 0%nat _ ltac:(lia) eq_refl) as H0.
      cbn [firstn] in H0, Hraise. rewrite app_nil_r in H0.
      rewrite H0. cbn [saved printed]. rewrite Hraise.
      cbn [firstn]. rewrite <- app_assoc. reflexivity.
    + injection Hk as <-.
      pose proof (Hbefore 0%nat _ ltac:(lia) eq_refl) as H0.
      pose proof (Hbefore 1%nat _ ltac:(lia) eq_refl) as H1.
      cbn [firstn] in H0, H1, Hraise. rewrite app_nil_r in H0.
      rewrite H0. cbn [saved printed]. rewrite H1. cbn [saved printed].
      rewrite <- app_assoc. cbn [app]. rewrite Hraise.
      cbn [firstn]. rewrite <- app_assoc. reflexivity.
    + destruct k; discriminate.
  - intros Hall.
    pose proof (Hall 0%nat _ eq_refl) as H0.
    pose proof (Hall 1%nat _ eq_refl) as H1.
    pose proof (Hall 2%nat _ eq_refl) as H2.
    cbn [firstn] in H0, H1, H2. rewrite app_nil_r in H0.
    rewrite H0. cbn [saved printed]. rewrite H1. cbn [saved printed].
    rewrite <- app_assoc. cbn [app]. rewrite H2. cbn [saved printed].
    rewrite <- app_assoc. reflexivity.
Qed.

Lemma save_figure_message_witness :
  save_figure "figures"%string sample_joinpath savefig_no_eps "fig1_phi_vs_noise"
    (mkWorld [] [])
  = (Raise (RuntimeError "eps backend unavailable"),
     mkWorld
       [mkSavefig "figures/fig1_phi_vs_noise.pdf"%string "pdf" 600%Z;
        mkSavefig "figures/fig1_phi_vs_noise.png"%string "png" 600%Z;
        mkSavefig "figures/fig1_phi_vs_noise.eps"%string "eps" 600%Z]
       []).
Proof.
  apply (proj1 (proj2 (save_figure_message string "figures"%string sample_joinpath
                         savefig_no_eps "fig1_phi_vs_noise" (mkWorld [] [])))
           2%nat
           (mkSavefig "figures/fig1_phi_vs_noise.eps"%string "eps" 600%Z)
           (RuntimeError "eps backend unavailable")).
  - reflexivity.
  - intros j call' Hj Hcall.
    destruct j as [| [| j]]; [| | lia]; cbn in Hcall; injection Hcall as <-;
      reflexivity.
  - reflexivity.
Defined.
